(** * GoogleAIModule: request lifecycle of the Gemini adapter

    A shallow embedding of [GoogleAIModule.py]: the module's three
    process-shared scalars, the request container, the conversation files
    and the calls to the collaborators (clock, HTTP client, model client,
    message sender, user store) are threaded through a state-and-exception
    monad.  Everything the environment decides (clock readings, network
    results, the moment the dispatcher raises the cancel flag, I/O faults)
    is an explicit input, so that every run of the Python code corresponds
    to one evaluation of the functions below. *)

From stdpp Require Import gmap strings list fin_maps.
From Stdlib Require Import ZArith Lia Ascii String.

Local Open Scope Z_scope.

(** ** Python values *)

(** Values found in a user record ([request_response.user] is a dict). *)
Inductive pyval :=
  | VNone
  | VInt (n : Z)
  | VStr (s : string).

(** Exceptions, by class.  [ExternalError] stands for whatever a
    collaborator raises (requests, the model client, the OS). *)
Inductive exn :=
  | IndexError
  | KeyError
  | TypeError
  | ValueError
  | AttributeError
  | JSONDecodeError
  | ModuleDisabled              (* Exception("Google AI module disabled in config file!") *)
  | ExternalError (what : string).

Inductive result (A : Type) :=
  | Ok (a : A)
  | Raise (e : exn).
Arguments Ok {A} a.
Arguments Raise {A} e.

(** What [json.load] can return. *)
Local Unset Elimination Schemes.
Inductive json :=
  | JNull
  | JBool (b : bool)
  | JInt (n : Z)
  | JStr (s : string)
  | JArr (l : list json)
  | JObj (l : list (string * json)).
Local Set Elimination Schemes.

(** Truth value of a loaded document, for [x or []]. *)
Definition truthy (v : json) : bool :=
  match v with
  | JNull => false
  | JBool b => b
  | JInt n => negb (Z.eqb n 0)
  | JStr s => negb (String.eqb s "")
  | JArr l => match l with [] => false | _ => true end
  | JObj l => match l with [] => false | _ => true end
  end.

Definition py_or (a b : json) : json := if truthy a then a else b.

(** ** google.ai.generativelanguage: Part, Content, streamed chunks *)

Inductive Part :=
  | PartText (text : string)
  | PartInlineData (mime_type : string) (data : string).

Record Content := mkContent { role : string; parts : list Part }.

Record Chunk := mkChunk { chunk_parts : list Part }.

(** [len(chunk.parts) < 1 or "text" not in chunk.parts[0]] is false exactly
    when the first part carries text; then [chunk.parts[0].text]. *)
Definition chunk_text (c : Chunk) : option string :=
  match chunk_parts c with
  | PartText t :: _ => Some t
  | _ => None
  end.

(** One pull on the response iterator.  [it_cancel] tells whether the
    dispatcher raised [cancel_requested] while the module was waiting for
    this item; [it_chunk] is what [next] gives back. *)
Record StreamItem := mkItem { it_cancel : bool; it_chunk : result Chunk }.

(** A streamed [GenerateContentResponse]: the items, whether the cancel flag
    is raised while waiting for the end of the stream, and what
    [response.parts] evaluates to afterwards. *)
Record Response := mkResponse {
  items : list StreamItem;
  end_cancel : bool;
  final_parts : result (list Part)
}.

Inductive prompt :=
  | PromptVision (image : string) (text : string)
  | PromptChat (history : list Content).

(** ** Observable effects *)

Inductive logmsg :=
  | LogInitializing (proxy : option string)
  | LogDisabledInConfig
  | LogInitialized
  | LogNotInitialized
  | LogTooFrequent (time_to_wait : Z)
  | LogDownloading
  | LogAsking
  | LogCanceled
  | LogLoading (id : pyval)
  | LogSkipLoading
  | LogFileNotExists (file : string)
  | LogLoadError (id : pyval) (e : exn)
  | LogSaving (id : pyval)
  | LogSkipSaving
  | LogSaveError (id : pyval) (e : exn)
  | LogDeleting (id : pyval)
  | LogDeletingFile (file : string)
  | LogDeleteError (id : pyval) (e : exn).

Inductive fileop := FExists | FOpenRead | FOpenWrite | FRemove.

Inductive event :=
  | ELog (m : logmsg)
  | ETime (t : Z)                               (* time.time() read t *)
  | ESleep (d : Z)                              (* time.sleep(d) *)
  | EDownload (url : string)                    (* requests.get *)
  | EGenerate (p : prompt)                      (* generate_content(..., stream=True) *)
  | ESend (text : string) (end_ : bool)         (* BotHandler.send_message_async *)
  | ESaveUser (u : gmap string pyval)           (* users_handler.save_user *)
  | EFile (op : fileop) (path : string).

(** ** Configuration, library functions, environment *)

Record Config := mkConfig {
  conversations_dir : string;     (* config["files"]["conversations_dir"] *)
  cooldown_seconds : Z;           (* config[config_key]["cooldown_seconds"] *)
  proxy_setting : string;         (* config[config_key]["proxy"] *)
  module_enabled : bool           (* config["modules"][config_key] *)
}.

(** The constructor arguments of [GoogleAIModule] that never change. *)
Record Module := mkModule {
  config : Config;
  config_key : string;
  messages : list (gmap string string)
}.

(** Library functions the module calls and does not define. *)
Class PyLib := mkPyLib {
  str_format : string -> string -> result string;       (* template.format(arg) *)
  json_dump : json -> string;                           (* json.dump(v, f, indent=4) *)
  json_load : string -> result json;                    (* json.load(f) *)
  Content_to_json : Content -> string;
  Content_from_json : string -> result Content
}.

(** What can go wrong with a file: the operation is refused outright
    ([open] or [os.remove] raises and the file is as it was), or a file that
    has been opened fails while it is read or written.  A file opened with
    mode ["w"] is truncated by then; [written] counts the characters that
    reached it before the failure. *)
Inductive io_fault :=
  | Refused (e : exn)
  | Interrupted (written : nat) (e : exn).

Definition fault_exn (f : io_fault) : exn :=
  match f with
  | Refused e => e
  | Interrupted _ e => e
  end.

(** What the outside world answers during one call. *)
Record Env := mkEnv {
  env_uuid : string;                              (* str(uuid.uuid4()) *)
  env_download : string -> result string;         (* requests.get(url).content *)
  env_generate : prompt -> result Response;       (* the model service *)
  env_io_fault : string -> option io_fault;       (* what goes wrong on this path *)
  env_client_setup : option exn                   (* client configuration raises *)
}.

(** ** State *)

Record State := mkState {
  (* self *)
  _enabled : bool;
  _model : bool;                       (* self._model is not None *)
  _vision_model : bool;                (* self._vision_model is not None *)
  processing_flag : bool;
  cancel_requested : bool;
  _last_request_time : Z;
  (* request_response *)
  response : string;
  error : bool;
  user : gmap string pyval;
  (* the world *)
  clock : Z;                           (* latest instant known to have passed *)
  ticks : list N;                      (* time elapsing before each clock reading *)
  fs : gmap string string;             (* text files *)
  http_proxy : option string;          (* os.environ["http_proxy"] *)
  trace : list event                   (* effects so far, oldest first *)
}.

Definition set_enabled (b : bool) (s : State) : State :=
  mkState b (_model s) (_vision_model s) (processing_flag s) (cancel_requested s)
    (_last_request_time s) (response s) (error s) (user s) (clock s) (ticks s) (fs s)
    (http_proxy s) (trace s).
Definition set_model (b : bool) (s : State) : State :=
  mkState (_enabled s) b (_vision_model s) (processing_flag s) (cancel_requested s)
    (_last_request_time s) (response s) (error s) (user s) (clock s) (ticks s) (fs s)
    (http_proxy s) (trace s).
Definition set_vision_model (b : bool) (s : State) : State :=
  mkState (_enabled s) (_model s) b (processing_flag s) (cancel_requested s)
    (_last_request_time s) (response s) (error s) (user s) (clock s) (ticks s) (fs s)
    (http_proxy s) (trace s).
Definition set_processing_flag (b : bool) (s : State) : State :=
  mkState (_enabled s) (_model s) (_vision_model s) b (cancel_requested s)
    (_last_request_time s) (response s) (error s) (user s) (clock s) (ticks s) (fs s)
    (http_proxy s) (trace s).
Definition set_cancel_requested (b : bool) (s : State) : State :=
  mkState (_enabled s) (_model s) (_vision_model s) (processing_flag s) b
    (_last_request_time s) (response s) (error s) (user s) (clock s) (ticks s) (fs s)
    (http_proxy s) (trace s).
Definition set_last_request_time (t : Z) (s : State) : State :=
  mkState (_enabled s) (_model s) (_vision_model s) (processing_flag s) (cancel_requested s)
    t (response s) (error s) (user s) (clock s) (ticks s) (fs s)
    (http_proxy s) (trace s).
Definition set_response (r : string) (s : State) : State :=
  mkState (_enabled s) (_model s) (_vision_model s) (processing_flag s) (cancel_requested s)
    (_last_request_time s) r (error s) (user s) (clock s) (ticks s) (fs s)
    (http_proxy s) (trace s).
Definition set_error (b : bool) (s : State) : State :=
  mkState (_enabled s) (_model s) (_vision_model s) (processing_flag s) (cancel_requested s)
    (_last_request_time s) (response s) b (user s) (clock s) (ticks s) (fs s)
    (http_proxy s) (trace s).
Definition set_user (u : gmap string pyval) (s : State) : State :=
  mkState (_enabled s) (_model s) (_vision_model s) (processing_flag s) (cancel_requested s)
    (_last_request_time s) (response s) (error s) u (clock s) (ticks s) (fs s)
    (http_proxy s) (trace s).
Definition set_clock (t : Z) (k : list N) (s : State) : State :=
  mkState (_enabled s) (_model s) (_vision_model s) (processing_flag s) (cancel_requested s)
    (_last_request_time s) (response s) (error s) (user s) t k (fs s)
    (http_proxy s) (trace s).
Definition set_fs (f : gmap string string) (s : State) : State :=
  mkState (_enabled s) (_model s) (_vision_model s) (processing_flag s) (cancel_requested s)
    (_last_request_time s) (response s) (error s) (user s) (clock s) (ticks s) f
    (http_proxy s) (trace s).
Definition set_http_proxy (p : option string) (s : State) : State :=
  mkState (_enabled s) (_model s) (_vision_model s) (processing_flag s) (cancel_requested s)
    (_last_request_time s) (response s) (error s) (user s) (clock s) (ticks s) (fs s)
    p (trace s).
Definition emit (e : event) (s : State) : State :=
  mkState (_enabled s) (_model s) (_vision_model s) (processing_flag s) (cancel_requested s)
    (_last_request_time s) (response s) (error s) (user s) (clock s) (ticks s) (fs s)
    (http_proxy s) (trace s ++ [e]).

(** ** The monad: state and exceptions *)

Definition M (A : Type) : Type := State -> result A * State.

Definition ret {A} (a : A) : M A := fun s => (Ok a, s).
Definition raise {A} (e : exn) : M A := fun s => (Raise e, s).
Definition bind {A B} (m : M A) (k : A -> M B) : M B :=
  fun s => match m s with
           | (Ok a, s') => k a s'
           | (Raise e, s') => (Raise e, s')
           end.

Declare Scope py_scope.
Delimit Scope py_scope with py.
Notation "x <- m ;; k" := (bind m (fun x => k))
  (at level 100, m at next level, right associativity) : py_scope.
Notation "m ;; k" := (bind m (fun _ => k))
  (at level 100, right associativity) : py_scope.
Local Open Scope py_scope.

Definition gets {A} (f : State -> A) : M A := fun s => (Ok (f s), s).
Definition modify (f : State -> State) : M unit := fun s => (Ok tt, f s).
Definition lift {A} (r : result A) : M A := fun s => (r, s).

(** [try: body except Exception as e: handler e] *)
Definition try_except {A} (body : M A) (handler : exn -> M A) : M A :=
  fun s => match body s with
           | (Ok a, s') => (Ok a, s')
           | (Raise e, s') => handler e s'
           end.

(** [try: body finally: cleanup] *)
Definition try_finally {A} (body : M A) (cleanup : M unit) : M A :=
  fun s => match body s with
           | (r, s') => match cleanup s' with
                        | (Ok _, s'') => (r, s'')
                        | (Raise e, s'') => (Raise e, s'')
                        end
           end.

(** ** Python built-ins used by the module *)

Definition newline : string := String "010"%char EmptyString.

(** [str.replace(old, new)]: every non-overlapping occurrence, left to right.
    [skip] counts the characters of a match that are still to be dropped. *)
Fixpoint replace_from (old new : string) (skip : nat) (s : string) : string :=
  match s with
  | EmptyString => match old with EmptyString => new | _ => EmptyString end
  | String c rest =>
      match skip with
      | S k => replace_from old new k rest
      | O =>
          if String.prefix old s
          then (new +:+ match old with
                        | EmptyString => String c (replace_from old new O rest)
                        | _ => replace_from old new (String.length old - 1)%nat rest
                        end)%string
          else String c (replace_from old new O rest)
      end
  end.

Definition str_replace (old new s : string) : string := replace_from old new O s.

(** [l[i]] on a list, negative indices counting from the end. *)
Definition list_getitem {A} (l : list A) (i : pyval) : result A :=
  match i with
  | VInt n =>
      let k := if n <? 0 then n + Z.of_nat (List.length l) else n in
      if k <? 0 then Raise IndexError
      else match l !! Z.to_nat k with
           | Some x => Ok x
           | None => Raise IndexError
           end
  | _ => Raise TypeError
  end.

Definition dict_getitem (d : gmap string string) (k : string) : result string :=
  match d !! k with
  | Some v => Ok v
  | None => Raise KeyError
  end.

(** [x + ".json"]: concatenation is defined on two strings only. *)
Definition py_add_str (x : pyval) (suffix : string) : result string :=
  match x with
  | VStr s => Ok (s +:+ suffix)
  | _ => Raise TypeError
  end.

Definition ends_with_sep (s : string) : bool :=
  match String.length s with
  | O => false
  | S k => match String.get k s with
           | Some c => Ascii.eqb c "/"%char
           | None => false
           end
  end.

(** [os.path.join(a, b)] (POSIX). *)
Definition os_path_join (a b : string) : string :=
  if String.prefix "/" b then b
  else if String.eqb a "" || ends_with_sep a then a +:+ b
  else a +:+ "/" +:+ b.

(** Truth value of an optional string ([None] and [""] are false). *)
Definition str_truthy (o : option string) : bool :=
  match o with
  | Some s => negb (String.eqb s "")
  | None => false
  end.

(** [conversation.append(x)]: only a list has [append]. *)
Definition py_append (v x : json) : result json :=
  match v with
  | JArr l => Ok (JArr (l ++ [x]))
  | _ => Raise AttributeError
  end.

(** The request container's fields that [process_request] only reads. *)
Record Request := mkRequest {
  request : string;
  image_url : option string
}.

Local Open Scope py_scope.

Section GoogleAIModule.
Context {lib : PyLib}.
Variable self : Module.
Variable env : Env.

(** *** Collaborators *)

Definition log (m : logmsg) : M unit := modify (emit (ELog m)).

(** [time.time()]: the wall clock, after the next tick has elapsed. *)
Definition time_time : M Z :=
  now <- gets (fun s => clock s + Z.of_N (hd 0%N (ticks s)));;
  modify (fun s => emit (ETime now) (set_clock now (tl (ticks s)) s));;
  ret now.

(** [time.sleep(d)]: at least [d] passes; a negative [d] is a ValueError. *)
Definition time_sleep (d : Z) : M unit :=
  if d <? 0 then raise ValueError
  else modify (fun s => emit (ESleep d) (set_clock (clock s + d) (ticks s) s)).

Definition requests_get (url : string) : M string :=
  modify (emit (EDownload url));; lift (env_download env url).

(** [model.generate_content(p, stream=True)]; [present] tells whether the
    model attribute is set (a call on [None] is an AttributeError). *)
Definition generate_content (present : bool) (p : prompt) : M Response :=
  if present then modify (emit (EGenerate p));; lift (env_generate env p)
  else raise AttributeError.

(** [BotHandler.async_helper(BotHandler.send_message_async(config, messages,
    request_response, end=end_))]: the sender sees the container as it is. *)
Definition send_message (end_ : bool) : M unit :=
  modify (fun s => emit (ESend (response s) end_) s).

(** [self.users_handler.save_user(user)] *)
Definition save_user : M unit :=
  modify (fun s => emit (ESaveUser (user s)) s).

Definition user_get (key : string) (dflt : pyval) : M pyval :=
  gets (fun s => default dflt (user s !! key)).

Definition user_setitem (key : string) (v : pyval) : M unit :=
  modify (fun s => set_user (<[key := v]> (user s)) s).

Definition os_path_exists (path : string) : M bool :=
  modify (emit (EFile FExists path));;
  gets (fun s => bool_decide (is_Some (fs s !! path))).

(** [with open(path, "r") as f: f.read()] *)
Definition read_text (path : string) : M string :=
  modify (emit (EFile FOpenRead path));;
  match env_io_fault env path with
  | Some fault => raise (fault_exn fault)
  | None =>
      files <- gets fs;;
      match files !! path with
      | Some text => ret text
      | None => raise (ExternalError "FileNotFoundError")
      end
  end.

(** [with open(path, "w") as f: f.write(text)]: once the file is open its
    old content is gone, whether or not the write completes. *)
Definition write_text (path text : string) : M unit :=
  modify (emit (EFile FOpenWrite path));;
  match env_io_fault env path with
  | Some (Refused e) => raise e
  | Some (Interrupted written e) =>
      modify (fun s => set_fs (<[path := String.substring 0 written text]> (fs s)) s);;
      raise e
  | None => modify (fun s => set_fs (<[path := text]> (fs s)) s)
  end.

(** [os.remove(path)]: removes the file or raises, nothing in between. *)
Definition os_remove (path : string) : M unit :=
  modify (emit (EFile FRemove path));;
  match env_io_fault env path with
  | Some fault => raise (fault_exn fault)
  | None =>
      files <- gets fs;;
      match files !! path with
      | Some _ => modify (fun s => set_fs (delete path (fs s)) s)
      | None => raise (ExternalError "FileNotFoundError")
      end
  end.

(** *** Conversation store *)

Definition _load_conversation (conversations_dir : string) (conversation_id : pyval)
  : M json :=
  log (LogLoading conversation_id);;
  try_except
    (match conversation_id with
     | VNone => log LogSkipLoading;; ret JNull
     | _ =>
         name <- lift (py_add_str conversation_id ".json");;
         let conversation_file := os_path_join conversations_dir name in
         found <- os_path_exists conversation_file;;
         if found
         then text <- read_text conversation_file;; lift (json_load text)
         else log (LogFileNotExists conversation_file);; ret JNull
     end)
    (fun e => log (LogLoadError conversation_id e);; ret JNull).

Definition _save_conversation (conversations_dir : string) (conversation_id : pyval)
    (conversation : json) : M bool :=
  log (LogSaving conversation_id);;
  try_except
    (match conversation_id with
     | VNone => log LogSkipSaving;; ret false
     | _ =>
         name <- lift (py_add_str conversation_id ".json");;
         let conversation_file := os_path_join conversations_dir name in
         write_text conversation_file (json_dump conversation);;
         ret true
     end)
    (fun e => log (LogSaveError conversation_id e);; ret false).

Definition _delete_conversation (conversations_dir : string) (conversation_id : pyval)
  : M bool :=
  log (LogDeleting conversation_id);;
  try_except
    (name <- lift (py_add_str conversation_id ".json");;
     let conversation_file := os_path_join conversations_dir name in
     found <- os_path_exists conversation_file;;
     (if found
      then log (LogDeletingFile conversation_file);; os_remove conversation_file
      else ret tt);;
     ret true)
    (fun e => log (LogDeleteError conversation_id e);; ret false).

(** *** process_request *)

Definition config_value {A} (f : Config -> A) : A := f (config self).

(** [f"{self.config_key}_conversation_id"] *)
Definition conversation_key : string := config_key self +:+ "_conversation_id".

(** [self.messages[lang]["response_error"].replace("\\n", "\n").format(arg)] *)
Definition response_error (lang : pyval) (arg : string) : result string :=
  match list_getitem (messages self) lang with
  | Raise e => Raise e
  | Ok table =>
      match dict_getitem table "response_error" with
      | Raise e => Raise e
      | Ok template => str_format (str_replace "\n" newline template) arg
      end
  end.

(** Lines 155-164: the cool down. *)
Definition cool_down : M unit :=
  now <- time_time;;
  last <- gets _last_request_time;;
  (if now - last <=? config_value cooldown_seconds
   then
     now <- time_time;;
     last <- gets _last_request_time;;
     let time_to_wait := config_value cooldown_seconds - (now - last) in
     log (LogTooFrequent time_to_wait);;
     last <- gets _last_request_time;;
     now <- time_time;;
     time_sleep (last + config_value cooldown_seconds - now)
   else ret tt);;
  now <- time_time;;
  modify (set_last_request_time now).

(** [[Content.from_json(content) for content in conversation]] *)
Fixpoint contents_from_json (l : list json) : result (list Content) :=
  match l with
  | [] => Ok []
  | JStr s :: rest =>
      match Content_from_json s with
      | Raise e => Raise e
      | Ok c =>
          match contents_from_json rest with
          | Raise e => Raise e
          | Ok cs => Ok (c :: cs)
          end
      end
  | _ :: _ => Raise AttributeError
  end.

(** The entries of a conversation that [append] has accepted. *)
Definition entries_of (v : json) : result (list json) :=
  match v with
  | JArr l => Ok l
  | _ => Raise TypeError
  end.

(** Lines 166-199: the model call.  Gives back the streamed response, the
    conversation and the conversation identifier as the rest of the
    function sees them. *)
Definition ask_gemini (rr : Request) (conversations_dir : string)
    (conversation_id : pyval) : M (Response * json * pyval) :=
  let conversation := JArr [] in
  if str_truthy (image_url rr)
  then
    log LogDownloading;;
    image <- requests_get (default EmptyString (image_url rr));;
    log LogAsking;;
    present <- gets _vision_model;;
    response <- generate_content present (PromptVision image (request rr));;
    ret (response, conversation, conversation_id)
  else
    loaded <- _load_conversation conversations_dir conversation_id;;
    let conversation := py_or loaded (JArr []) in
    let conversation_id :=
      match conversation_id with
      | VNone => VStr (env_uuid env)
      | _ => conversation_id
      end in
    conversation <-
      lift (py_append conversation
              (JStr (Content_to_json (mkContent "user" [PartText (request rr)]))));;
    log LogAsking;;
    present <- gets _model;;
    (if present then ret tt else raise AttributeError);;
    entries <- lift (entries_of conversation);;
    history <- lift (contents_from_json entries);;
    response <- generate_content present (PromptChat history);;
    ret (response, conversation, conversation_id).

(** The dispatcher raising the flag from its own process. *)
Definition external_cancel (raised : bool) : M unit :=
  if raised then modify (set_cancel_requested true) else ret tt.

(** Lines 201-210: [for chunk in response]. *)
Fixpoint stream_chunks (pending : list StreamItem) (at_end : bool) : M unit :=
  match pending with
  | [] => external_cancel at_end
  | item :: rest =>
      external_cancel (it_cancel item);;
      chunk <- lift (it_chunk item);;
      cancelled <- gets cancel_requested;;
      if cancelled then ret tt
      else
        match chunk_text chunk with
        | None => stream_chunks rest at_end
        | Some text =>
            modify (fun s => set_response (response s +:+ text) s);;
            send_message false;;
            stream_chunks rest at_end
        end
  end.

(** Lines 212-220: what follows the loop. *)
Definition finish_turn (rr : Request) (conversations_dir : string)
    (response : Response) (conversation : json) (conversation_id : pyval) : M unit :=
  cancelled <- gets cancel_requested;;
  if cancelled then log LogCanceled
  else if negb (str_truthy (image_url rr))
  then
    model_parts <- lift (final_parts response);;
    conversation <-
      lift (py_append conversation (JStr (Content_to_json (mkContent "model" model_parts))));;
    saved <- _save_conversation conversations_dir conversation_id conversation;;
    let conversation_id := if saved then conversation_id else VNone in
    user_setitem conversation_key conversation_id;;
    save_user
  else ret tt.

(** Lines 152-220: the body of the [try] statement. *)
Definition request_body (rr : Request) (conversations_dir : string)
    (conversation_id : pyval) : M unit :=
  modify (set_processing_flag true);;
  cool_down;;
  asked <- ask_gemini rr conversations_dir conversation_id;;
  let '(response, conversation, conversation_id) := asked in
  stream_chunks (items response) (end_cancel response);;
  finish_turn rr conversations_dir response conversation conversation_id.

Definition process_request (rr : Request) : M unit :=
  lang <- user_get "lang" (VInt 0);;
  let conversations_dir := config_value conversations_dir in
  conversation_id <- user_get conversation_key VNone;;
  enabled <- gets _enabled;;
  if negb enabled
  then
    log LogNotInitialized;;
    text <- lift (response_error lang "Google AI module not initialized!");;
    modify (set_response text);;
    modify (set_error true);;
    modify (set_processing_flag false);;
    ret tt
  else
    try_finally
      (try_except
         (request_body rr conversations_dir conversation_id)
         (fun e => modify (set_enabled false);; raise e))
      (modify (set_processing_flag false));;
    send_message true.

(** *** clear_conversation_for_user *)

Definition clear_conversation_for_user : M unit :=
  conversation_id <- user_get conversation_key VNone;;
  match conversation_id with
  | VNone => ret tt
  | _ =>
      _delete_conversation (config_value conversations_dir) conversation_id;;
      user_setitem conversation_key VNone;;
      save_user
  end.

(** *** initialize *)

Definition initialize (proxy : option string) : M unit :=
  modify (set_enabled false);;
  modify (set_model false);;
  modify (set_processing_flag false);;
  modify (set_cancel_requested false);;
  try_except
    (let proxy :=
       if negb (str_truthy proxy)
          && str_truthy (Some (config_value proxy_setting))
          && negb (String.eqb (config_value proxy_setting) "auto")
       then Some (config_value proxy_setting)
       else proxy in
     log (LogInitializing proxy);;
     (if str_truthy proxy then modify (set_http_proxy proxy) else ret tt);;
     modify (set_enabled (config_value module_enabled));;
     enabled <- gets _enabled;;
     (if negb enabled then log LogDisabledInConfig;; raise ModuleDisabled else ret tt);;
     modify (set_model true);;
     modify (set_vision_model true);;
     match env_client_setup env with
     | Some e => raise e
     | None => log LogInitialized
     end)
    (fun e => modify (set_enabled false);; raise e).

End GoogleAIModule.

(** ** Serving several requests

    The dispatcher builds a fresh container for each request and hands it
    to the same module instance; the outside world answers each call in
    its own way. *)

Record Call := mkCall {
  call_env : Env;
  call_request : Request;
  call_user : gmap string pyval;
  call_response : string;
  call_ticks : list N
}.

Definition load_container (c : Call) (s : State) : State :=
  set_clock (clock s) (call_ticks c)
    (set_user (call_user c) (set_error false (set_response (call_response c) s))).

Definition dispatch `{PyLib} (self : Module) (c : Call) (s : State) : result unit * State :=
  process_request self (call_env c) (call_request c) (load_container c s).

(** The states in which the successive calls start. *)
Fixpoint serve `{PyLib} (self : Module) (calls : list Call) (s : State) : list State :=
  match calls with
  | [] => []
  | c :: rest => load_container c s :: serve self rest (snd (dispatch self c s))
  end.


(** ** The constructor *)

(** Lines 47-66: [GoogleAIModule.__init__] gives the new instance its three
    shared scalars and its private fields; configuration, messages and the
    user store are the [Module] record. *)
Definition __init__ : M unit :=
  (modify (set_cancel_requested false);;
   modify (set_processing_flag false);;
   modify (set_last_request_time 0);;
   modify (set_enabled false);;
   modify (set_model false);;
   modify (set_vision_model false))%py.
(** * Vocabulary for the properties *)

(** ** Relations between the state before and after a computation *)

Definition keeps (R : State -> State -> Prop) {A} (m : M A) : Prop :=
  forall s, R s (snd (m s)).

(** The effects added between two states all satisfy [P]. *)
Definition emits (P : event -> Prop) (s s' : State) : Prop :=
  exists t, trace s' = trace s ++ t /\ Forall P t.

(** A field is left as it was. *)
Definition same {A} (f : State -> A) (s s' : State) : Prop := f s' = f s.

Definition both (R1 R2 : State -> State -> Prop) (s s' : State) : Prop :=
  R1 s s' /\ R2 s s'.

(** ** Effects by kind *)

Definition is_file_event (e : event) : Prop :=
  match e with EFile _ _ => True | _ => False end.

Definition is_write (e : event) : Prop :=
  match e with EFile FOpenWrite _ | EFile FRemove _ => True | _ => False end.

Definition is_save_user (e : event) : Prop :=
  match e with ESaveUser _ => True | _ => False end.

Definition is_send (e : event) : Prop :=
  match e with ESend _ _ => True | _ => False end.

Definition is_final_send (e : event) : Prop :=
  match e with ESend _ true => True | _ => False end.

Definition is_model_call (e : event) : Prop :=
  match e with EGenerate _ | EDownload _ => True | _ => False end.

Definition is_clock_event (e : event) : Prop :=
  match e with ETime _ | ESleep _ => True | _ => False end.

(** Neither a file operation nor a call to the user store. *)
Definition storeless (e : event) : Prop := ~ is_file_event e /\ ~ is_save_user e.

Definition store_untouched : State -> State -> Prop :=
  both (same fs) (both (same user) (emits storeless)).

(** The container, the files and the cancel flag are as they were. *)
Definition quiet : State -> State -> Prop :=
  both (same fs) (both (same user) (both (same response)
    (both (same error) (same cancel_requested)))).

(** What each part of [process_request] may do. *)
Definition cool_event (e : event) : Prop :=
  match e with
  | ETime _ | ESleep _ | ELog (LogTooFrequent _) => True
  | _ => False
  end.

Definition ask_event (e : event) : Prop :=
  match e with
  | ELog LogDownloading | ELog LogAsking | ELog (LogLoading _) | ELog LogSkipLoading
  | ELog (LogFileNotExists _) | ELog (LogLoadError _ _)
  | EDownload _ | EGenerate _ | EFile FExists _ | EFile FOpenRead _ => True
  | _ => False
  end.

Definition relay_event (e : event) : Prop :=
  match e with ESend _ false => True | _ => False end.

Definition finish_event (e : event) : Prop :=
  match e with
  | ELog LogCanceled | ELog (LogSaving _) | ELog LogSkipSaving | ELog (LogSaveError _ _)
  | EFile FOpenWrite _ | ESaveUser _ => True
  | _ => False
  end.

Definition body_event (e : event) : Prop :=
  cool_event e \/ ask_event e \/ relay_event e \/ finish_event e.

(** The text of the rejection, and the file of a conversation. *)
Definition not_initialized : string := "Google AI module not initialized!".

Definition conversation_path (dir name : string) : string :=
  os_path_join dir (name +:+ ".json").

(** ** A small instance of the library interface

    Enough of [str.format], [json] and [Content.to_json] to run the module
    on concrete inputs: [{0}] and [{}] as replacement fields, arrays of
    strings as documents, and [role:text] as the serialized form of a
    turn. *)

Definition dquote : ascii := "034"%char.
Definition backslash : ascii := "092"%char.

Definition demo_format (template arg : string) : result string :=
  Ok (str_replace "{}" arg (str_replace "{0}" arg template)).

Fixpoint demo_escape (s : string) : string :=
  match s with
  | EmptyString => EmptyString
  | String c rest =>
      if Ascii.eqb c dquote || Ascii.eqb c backslash
      then String backslash (String c (demo_escape rest))
      else String c (demo_escape rest)
  end.

Definition demo_quote (s : string) : string :=
  String dquote (demo_escape s +:+ String dquote EmptyString).

Definition demo_dump (v : json) : string :=
  match v with
  | JArr l =>
      "[" +:+ String.concat ","
                (map (fun x => match x with JStr s => demo_quote s | _ => "null"%string end) l)
          +:+ "]"
  | JStr s => demo_quote s
  | _ => "null"
  end.

Inductive demo_parser :=
  | PStart
  | PElems (acc : list string)
  | PStr (acc : list string) (cur : string) (escaped : bool)
  | PDone (acc : list string)
  | PBad.

Definition demo_step (p : demo_parser) (c : ascii) : demo_parser :=
  match p with
  | PStart => if Ascii.eqb c "["%char then PElems [] else PBad
  | PElems acc =>
      if Ascii.eqb c dquote then PStr acc EmptyString false
      else if Ascii.eqb c ","%char then PElems acc
      else if Ascii.eqb c "]"%char then PDone acc
      else PBad
  | PStr acc cur true => PStr acc (cur +:+ String c EmptyString) false
  | PStr acc cur false =>
      if Ascii.eqb c backslash then PStr acc cur true
      else if Ascii.eqb c dquote then PElems (acc ++ [cur])
      else PStr acc (cur +:+ String c EmptyString) false
  | PDone _ => PBad
  | PBad => PBad
  end.

Fixpoint demo_parse (p : demo_parser) (s : string) : demo_parser :=
  match s with
  | EmptyString => p
  | String c rest => demo_parse (demo_step p c) rest
  end.

Definition demo_load (s : string) : result json :=
  match demo_parse PStart s with
  | PDone acc => Ok (JArr (map JStr acc))
  | _ => Raise JSONDecodeError
  end.

Definition demo_to_json (c : Content) : string :=
  role c +:+ ":" +:+
  String.concat EmptyString
    (map (fun p => match p with PartText t => t | PartInlineData _ _ => EmptyString end)
         (parts c)).

Fixpoint demo_split (acc s : string) : option (string * string) :=
  match s with
  | EmptyString => None
  | String c rest =>
      if Ascii.eqb c ":"%char then Some (acc, rest)
      else demo_split (acc +:+ String c EmptyString) rest
  end.

Definition demo_from_json (s : string) : result Content :=
  match demo_split EmptyString s with
  | Some (r, t) => Ok (mkContent r [PartText t])
  | None => Raise ValueError
  end.

Definition demo_lib : PyLib :=
  mkPyLib demo_format demo_dump demo_load demo_to_json demo_from_json.

(** ** Concrete inputs *)

Definition demo_module : Module :=
  mkModule (mkConfig "conversations" 10 "" true) "gemini"
    [ {[ "response_error"%string := "Error: {0}\nTry again"%string ]} ].

(** An idle, initialized module at time 100 facing a fresh container. *)
Definition demo_state : State :=
  mkState true true true false false 0 "" false ∅ 100 [] ∅ None [].

Definition text_chunk (t : string) : StreamItem := mkItem false (Ok (mkChunk [PartText t])).

Definition demo_reply : Response :=
  mkResponse [text_chunk "Hi"; mkItem false (Ok (mkChunk [])); text_chunk " there"]
    false (Ok [PartText "Hi there"]).

(** A world in which every call succeeds. *)
Definition demo_env : Env :=
  mkEnv "0b5f" (fun _ => Ok "jpeg"%string) (fun _ => Ok demo_reply) (fun _ => None) None.

(** A world in which the model service is down. *)
Definition demo_env_down : Env :=
  mkEnv "0b5f" (fun _ => Ok "jpeg"%string) (fun _ => Raise (ExternalError "503"))
    (fun _ => None) None.

Definition demo_text : Request := mkRequest "Hello" None.
Definition demo_image : Request := mkRequest "What is this?" (Some "http://host/cat.jpg"%string).

(** ** Streams and cancellation *)

(** A chunk that arrives while nobody has asked for a cancellation. *)
Definition delivered (c : Chunk) : StreamItem := mkItem false (Ok c).

(** The text carried by a sequence of chunks, in order; a chunk without a
    text part contributes nothing. *)
Fixpoint texts (chunks : list Chunk) : string :=
  match chunks with
  | [] => EmptyString
  | c :: rest => default EmptyString (chunk_text c) +:+ texts rest
  end.

(** The in-progress updates relayed for a sequence of chunks, starting from
    the accumulated text [acc]. *)
Fixpoint relays (acc : string) (chunks : list Chunk) : list event :=
  match chunks with
  | [] => []
  | c :: rest =>
      match chunk_text c with
      | Some t => ESend (acc +:+ t) false :: relays (acc +:+ t) rest
      | None => relays acc rest
      end
  end.

(** The state after the loop body has run on each chunk in turn. *)
Fixpoint consume (chunks : list Chunk) (s : State) : State :=
  match chunks with
  | [] => s
  | c :: rest =>
      consume rest
        match chunk_text c with
        | Some t => emit (ESend (response s +:+ t) false) (set_response (response s +:+ t) s)
        | None => s
        end
  end.

(** Lines 152-199: the request up to the moment the model has answered. *)
Definition reach_stream `{PyLib} (self : Module) (env : Env) (rr : Request)
    (dir : string) (id : pyval) : M (Response * json * pyval) :=
  (modify (set_processing_flag true);;
   cool_down self;;
   ask_gemini env rr dir id)%py.

(** The cancel flag is first seen raised right after [chunks]: either the
    stream ends there and the flag is up by then, or the flag went up while
    the next item was awaited. *)
Definition cancelled_after (chunks : list Chunk) (reply : Response) : Prop :=
  exists rest,
    items reply = map delivered chunks ++ rest /\
    match rest with
    | [] => end_cancel reply = true
    | item :: _ => it_cancel item = true
    end.

(** What the interrupted pull itself does: it may still fail. *)
Definition interrupted_pull (chunks : list Chunk) (reply : Response) : result unit :=
  match drop (List.length chunks) (items reply) with
  | item :: _ => match it_chunk item with Ok _ => Ok tt | Raise e => Raise e end
  | [] => Ok tt
  end.

(** A reply during which the dispatcher asks for a cancellation: the flag
    goes up while the second chunk is on its way. *)
Definition demo_reply_cancelled : Response :=
  mkResponse [text_chunk "Hi"; mkItem true (Ok (mkChunk [PartText " there"]))]
    false (Ok [PartText "Hi there"]).

Definition demo_env_cancelled : Env :=
  mkEnv "0b5f" (fun _ => Ok "jpeg"%string) (fun _ => Ok demo_reply_cancelled)
    (fun _ => None) None.

(** Lines 152-210: the request up to the end of the chunk loop. *)
Definition reach_finish `{PyLib} (self : Module) (env : Env) (rr : Request)
    (dir : string) (id : pyval) : M (Response * json * pyval) :=
  (asked <- reach_stream self env rr dir id;;
   stream_chunks (items (fst (fst asked))) (end_cancel (fst (fst asked)));;
   ret asked)%py.

(** The log lines that report a transcript that was not persisted. *)
Definition is_save_failure (m : logmsg) : Prop :=
  match m with
  | LogSkipSaving | LogSaveError _ _ => True
  | _ => False
  end.

(** A world in which the conversations directory cannot be written. *)
Definition demo_env_readonly : Env :=
  mkEnv "0b5f" (fun _ => Ok "jpeg"%string) (fun _ => Ok demo_reply)
    (fun _ => Some (Refused (ExternalError "PermissionError"))) None.

(** A module whose previous request was stamped at 90, asked again at 100
    with a cool down of 10, while the clock moves on by one unit between the
    second and the third reading. *)
Definition demo_state_race : State :=
  set_clock 100 [0%N; 0%N; 1%N] (set_last_request_time 90 demo_state).

(** The module of the examples with the cancel flag already up. *)
Definition demo_state_cancelled : State := set_cancel_requested true demo_state.

Definition demo_call (env : Env) (rr : Request) : Call := mkCall env rr ∅ "" [].

(** ** Further vocabulary *)

(** The proxy [initialize] settles on: the argument when it is given,
    otherwise the configured one unless it is empty or ["auto"]. *)
Definition chosen_proxy (self : Module) (proxy : option string) : option string :=
  if str_truthy proxy then proxy
  else if negb (String.eqb (proxy_setting (config self)) "")
          && negb (String.eqb (proxy_setting (config self)) "auto")
       then Some (proxy_setting (config self))
       else proxy.

(** A sleep, if the effect is one, lasts between nothing and [bound]. *)
Definition sleep_within (bound : Z) (e : event) : Prop :=
  match e with
  | ESleep d => 0 <= d <= bound
  | _ => True
  end.

(** The module of the examples right after a request stamped at 100, asked
    again three units later. *)
Definition demo_state_busy : State :=
  set_clock 100 [3%N] (set_last_request_time 100 demo_state).

(** A module whose message table has no text for the rejection. *)
Definition demo_module_mute : Module :=
  mkModule (mkConfig "conversations" 10 "" true) "gemini" [ ∅ ].

(** The serialized turns [process_request] appends to a transcript. *)
Definition user_turn `{PyLib} (rr : Request) : json :=
  JStr (Content_to_json (mkContent "user" [PartText (request rr)])).

Definition model_turn `{PyLib} (model_parts : list Part) : json :=
  JStr (Content_to_json (mkContent "model" model_parts)).

(** The identifier a text request goes on with. *)
Definition session_id (env : Env) (id : pyval) : pyval :=
  match id with
  | VNone => VStr (env_uuid env)
  | _ => id
  end.

(** A user of the examples with a stored conversation identifier. *)
Definition demo_state_known : State :=
  set_user {[ "gemini_conversation_id"%string := VStr "77aa" ]} demo_state.

(** A [json] that finds a non-empty object in every file, and a stored
    conversation file for the user above. *)
Definition demo_lib_object : PyLib :=
  mkPyLib demo_format demo_dump (fun _ => Ok (JObj [("role"%string, JStr "user")]))
    demo_to_json demo_from_json.

Definition demo_state_stored : State :=
  set_fs {[ "conversations/77aa.json"%string := "[]"%string ]} demo_state_known.

(** The response has only been extended. *)
Definition grows (s s' : State) : Prop :=
  exists suffix, response s' = response s +:+ suffix.

(** The number of calls to the model service among some effects. *)
Definition is_generate (e : event) : bool :=
  match e with EGenerate _ => true | _ => false end.

Definition model_calls (t : list event) : nat := List.length (filter is_generate t).

(** A reply the service has blocked: nothing is streamed and [response.parts]
    raises. *)
Definition demo_reply_blocked : Response := mkResponse [] false (Raise ValueError).

Definition demo_env_blocked : Env :=
  mkEnv "0b5f" (fun _ => Ok "jpeg"%string) (fun _ => Ok demo_reply_blocked)
    (fun _ => None) None.

(** The first two readings of the clock in a state. *)
Definition first_reading (s : State) : Z := clock s + Z.of_N (hd 0%N (ticks s)).

Definition second_reading (s : State) : Z :=
  first_reading s + Z.of_N (hd 0%N (tl (ticks s))).
(** * Reasoning about runs *)

(** ** Rules *)

#[global] Instance emits_preorder P : PreOrder (emits P).
Proof.
split.
- intros s. exists []. split; [by rewrite app_nil_r | constructor].
- intros s1 s2 s3 (t1 & E1 & F1) (t2 & E2 & F2).
    exists (t1 ++ t2). split.
    + by rewrite E2, E1, app_assoc.
    + by apply Forall_app.
Qed.

#[global] Instance same_preorder {A} (f : State -> A) : PreOrder (same f).
Proof.
split.
- intros s. reflexivity.
- intros s1 s2 s3 E1 E2. unfold same in *. congruence.
Qed.

#[global] Instance both_preorder R1 R2 `{!PreOrder R1, !PreOrder R2} : PreOrder (both R1 R2).
Proof.
split.
- intros s. split; reflexivity.
- intros s1 s2 s3 [A1 B1] [A2 B2]. split; etrans; eauto.
Qed.

Section Rules.
Context (R : State -> State -> Prop) `{!PreOrder R}.

Lemma keeps_ret {A} (a : A) : keeps R (ret a).
Proof. intros s. reflexivity. Qed.

Lemma keeps_raise {A} (e : exn) : keeps R (@raise A e).
Proof. intros s. reflexivity. Qed.

Lemma keeps_lift {A} (r : result A) : keeps R (lift r).
Proof. intros s. reflexivity. Qed.

Lemma keeps_gets {A} (f : State -> A) : keeps R (gets f).
Proof. intros s. reflexivity. Qed.

Lemma keeps_modify (f : State -> State) : (forall s, R s (f s)) -> keeps R (modify f).
Proof. intros H s. apply H. Qed.

Lemma keeps_bind {A B} (m : M A) (k : A -> M B) :
    keeps R m -> (forall a, keeps R (k a)) -> keeps R (bind m k).
Proof.
    intros Hm Hk s. unfold bind. specialize (Hm s).
    destruct (m s) as [[a|e] s1]; simpl in *.
    - etrans; [exact Hm | apply Hk].
    - exact Hm.
Qed.

Lemma keeps_try_except {A} (m : M A) (h : exn -> M A) :
    keeps R m -> (forall e, keeps R (h e)) -> keeps R (try_except m h).
Proof.
    intros Hm Hh s. unfold try_except. specialize (Hm s).
    destruct (m s) as [[a|e] s1]; simpl in *.
    - exact Hm.
    - etrans; [exact Hm | apply Hh].
Qed.

Lemma keeps_try_finally {A} (m : M A) (c : M unit) :
    keeps R m -> keeps R c -> keeps R (try_finally m c).
Proof.
    intros Hm Hc s. unfold try_finally. specialize (Hm s).
    destruct (m s) as [r s1]; simpl in *. specialize (Hc s1).
    destruct (c s1) as [[u|e] s2]; simpl in *; etrans; eauto.
Qed.
End Rules.

Lemma keeps_both R1 R2 {A} (m : M A) : keeps R1 m -> keeps R2 m -> keeps (both R1 R2) m.
Proof. intros H1 H2 s. split; [apply H1 | apply H2]. Qed.

Lemma emits_weaken (P Q : event -> Prop) s s' :
(forall e, P e -> Q e) -> emits P s s' -> emits Q s s'.
Proof.
intros HPQ (t & E & F). exists t. split; [done |].
eapply Forall_impl; eauto.
Qed.

Lemma emits_one (P : event -> Prop) e s : P e -> emits P s (emit e s).
Proof. intros H. exists [e]. split; [done | by constructor]. Qed.

Lemma emits_same_trace (P : event -> Prop) s s' : trace s' = trace s -> emits P s s'.
Proof. intros E. exists []. split; [by rewrite app_nil_r | constructor]. Qed.

Lemma emits_step (P : event -> Prop) e s s' :
trace s' = trace s ++ [e] -> P e -> emits P s s'.
Proof. intros E H. exists [e]. split; [done | by constructor]. Qed.

(** One state update against a relation built from [both], [same] and
    [emits]. *)
Ltac event_kind := first [ simpl; tauto | hnf; simpl; tauto | cbv; tauto ].

Ltac frame_update :=
intros;
repeat match goal with
         | |- both _ _ _ _ => split
         | |- same _ _ _ => reflexivity
         | |- emits _ _ _ =>
             first [ apply emits_same_trace; reflexivity
                   | eapply emits_step; [reflexivity | event_kind] ]
         | |- ?R _ _ => unfold R
         end.

(** Walks through a computation built from the monad's combinators. *)
Ltac frame_walk :=
repeat (cbv beta zeta;
    match goal with
    | |- keeps ?R (ret _) => apply (keeps_ret R)
    | |- keeps ?R (raise _) => apply (keeps_raise R)
    | |- keeps ?R (lift _) => apply (keeps_lift R)
    | |- keeps ?R (gets _) => apply (keeps_gets R)
    | |- keeps ?R (modify _) => apply (keeps_modify R); frame_update
    | |- keeps ?R (bind _ _) => apply (keeps_bind R); [| intros ?]
    | |- keeps ?R (try_except _ _) => apply (keeps_try_except R); [| intros ?]
    | |- keeps ?R (try_finally _ _) => apply (keeps_try_finally R)
    | |- keeps _ (if ?b then _ else _) => destruct b
    | |- keeps _ (match ?x with _ => _ end) => destruct x
    end).

#[global] Instance store_untouched_preorder : PreOrder store_untouched.
Proof. unfold store_untouched. apply _. Qed.

Section ImageRequests.
Context {lib : PyLib} (self : Module) (env : Env).

Lemma cool_down_storeless : keeps store_untouched (cool_down self).
Proof. unfold cool_down, time_time, time_sleep, log. frame_walk. Qed.

Lemma stream_chunks_storeless pending at_end :
    keeps store_untouched (stream_chunks pending at_end).
Proof.
    induction pending as [|item rest IH]; simpl;
      unfold external_cancel, send_message; frame_walk; exact IH.
Qed.

Lemma request_body_storeless rr dir id :
    str_truthy (image_url rr) = true ->
    keeps store_untouched (request_body self env rr dir id).
Proof.
    intros Himg. unfold request_body. frame_walk.
    - apply cool_down_storeless.
    - unfold ask_gemini. rewrite Himg.
      unfold log, requests_get, generate_content. frame_walk.
    - apply stream_chunks_storeless.
    - unfold finish_turn. rewrite Himg. simpl negb. unfold log. frame_walk.
Qed.
End ImageRequests.

Lemma process_request_storeless `{PyLib} self env rr :
  str_truthy (image_url rr) = true ->
  keeps store_untouched (process_request self env rr).
Proof.
  intros Himg. unfold process_request, user_get, log, send_message. frame_walk.
  by apply request_body_storeless.
Qed.

(** C6.  A request that carries an image URL never touches the conversation
    store: whatever the module's state and whatever the outside world
    answers, [process_request] leaves every file as it was, performs no file
    operation at all (not even an existence test), never calls the user
    store, and hands the user record back unchanged, so in particular its
    conversation identifier, stored or not, is the one it had. *)
Theorem image_request_leaves_store_untouched `{PyLib} self env rr s :
  str_truthy (image_url rr) = true ->
  let s' := snd (process_request self env rr s) in
  fs s' = fs s /\
  user s' = user s /\
  user s' !! conversation_key self = user s !! conversation_key self /\
  exists t, trace s' = trace s ++ t /\
            Forall (fun e => ~ is_file_event e /\ ~ is_save_user e) t.
Proof.
  intros Himg s'.
  destruct (process_request_storeless self env rr Himg s) as (Hfs & Huser & Hev).
  unfold same in *. fold s' in Hfs, Huser, Hev.
  repeat split; [done | done | by rewrite Huser | exact Hev].
Qed.

Lemma image_request_leaves_store_untouched_witness :
  str_truthy (image_url demo_image) = true /\
  let s' := snd (process_request (lib := demo_lib) demo_module demo_env demo_image demo_state) in
  fs s' = fs demo_state /\
  user s' = user demo_state /\
  user s' !! conversation_key demo_module = user demo_state !! conversation_key demo_module /\
  exists t, trace s' = trace demo_state ++ t /\
            Forall (fun e => ~ is_file_event e /\ ~ is_save_user e) t.
Proof.
  split; [reflexivity |].
  apply (image_request_leaves_store_untouched (H := demo_lib)
           demo_module demo_env demo_image demo_state).
  reflexivity.
Defined.

(** ** The two branches of [process_request] *)

Lemma process_request_disabled `{PyLib} self env rr s :
  _enabled s = false ->
  process_request self env rr s =
    match response_error self (default (VInt 0) (user s !! "lang"%string)) not_initialized with
    | Ok text =>
        (Ok tt,
         set_processing_flag false
           (set_error true (set_response text (emit (ELog LogNotInitialized) s))))
    | Raise e => (Raise e, emit (ELog LogNotInitialized) s)
    end.
Proof.
  intros Hen.
  unfold process_request, user_get, log, bind, gets, modify, lift, ret. simpl.
  rewrite Hen. simpl.
  unfold not_initialized. by destruct (response_error _ _ _).
Qed.

Lemma process_request_enabled `{PyLib} self env rr s :
  _enabled s = true ->
  process_request self env rr s =
    match request_body self env rr (conversations_dir (config self))
            (default VNone (user s !! conversation_key self)) s with
    | (Ok _, s1) =>
        (Ok tt, emit (ESend (response s1) true) (set_processing_flag false s1))
    | (Raise e, s1) => (Raise e, set_processing_flag false (set_enabled false s1))
    end.
Proof.
  intros Hen.
  unfold process_request, user_get, send_message, bind, gets, modify, ret,
    try_finally, try_except, raise, config_value. simpl.
  rewrite Hen. simpl.
  by destruct (request_body _ _ _ _ _ s) as [[[]|e] s1].
Qed.

(** C2, as the code has it.  A request that reaches a module that is not
    enabled is turned away at once.  Provided the message table has the
    [response_error] text for the user's language and [format] accepts it,
    [process_request] returns
    normally; the container's response is that localized text, its error
    flag is set and the processing flag is false.  The only effect is the
    error line in the log: the clock is not read, nothing sleeps, no file
    is looked at, and neither the HTTP client, the model, the message sender
    nor the user store is called. *)
Theorem disabled_module_rejects_request `{PyLib} self env rr s text :
  _enabled s = false ->
  response_error self (default (VInt 0) (user s !! "lang"%string)) not_initialized = Ok text ->
  let (r, s') := process_request self env rr s in
  r = Ok tt /\
  response s' = text /\
  error s' = true /\
  processing_flag s' = false /\
  trace s' = trace s ++ [ELog LogNotInitialized] /\
  fs s' = fs s /\ user s' = user s /\
  clock s' = clock s /\ ticks s' = ticks s /\
  _last_request_time s' = _last_request_time s /\
  cancel_requested s' = cancel_requested s /\
  _enabled s' = false.
Proof.
  intros Hen Htext. rewrite process_request_disabled by done. rewrite Htext.
  simpl. by rewrite Hen.
Qed.

Lemma disabled_module_rejects_request_witness :
  let s := set_enabled false demo_state in
  let text := ("Error: Google AI module not initialized!" +:+ newline +:+ "Try again")%string in
  _enabled s = false /\
  response_error (lib := demo_lib) demo_module (default (VInt 0) (user s !! "lang"%string))
    not_initialized = Ok text /\
  let (r, s') := process_request (lib := demo_lib) demo_module demo_env demo_text s in
  r = Ok tt /\
  response s' = text /\
  error s' = true /\
  processing_flag s' = false /\
  trace s' = trace s ++ [ELog LogNotInitialized] /\
  fs s' = fs s /\ user s' = user s /\
  clock s' = clock s /\ ticks s' = ticks s /\
  _last_request_time s' = _last_request_time s /\
  cancel_requested s' = cancel_requested s /\
  _enabled s' = false.
Proof.
  intros s text.
  split; [reflexivity |]. split; [reflexivity |].
  apply (disabled_module_rejects_request (H := demo_lib)
           demo_module demo_env demo_text s text); reflexivity.
Defined.

(** C2, the claim as stated fails: the module is not enabled and the message
    table of the user's language has no [response_error] text.  The lookup
    raises KeyError, so the call does not return normally; nothing has been
    written into the response and the error flag is not set.  Had the
    processing flag been up when the call started, it would still be up. *)
Lemma disabled_module_counterexample :
  let s := set_enabled false demo_state in
  let r := process_request (lib := demo_lib) demo_module_mute demo_env demo_text s in
  let r' := process_request (lib := demo_lib) demo_module_mute demo_env demo_text
              (set_processing_flag true s) in
  _enabled s = false /\
  fst r = Raise KeyError /\
  response (snd r) = response s /\
  error (snd r) = false /\
  fst r' = Raise KeyError /\
  processing_flag (snd r') = true.
Proof. vm_compute. repeat split. Qed.

(** C3.  Once past the enabled check, the processing flag is false when
    control leaves [process_request], on every path.  If the body of the
    [try] statement completes, be it after a full stream or after a
    cancellation, the call returns normally; if anything in the body raises
    (the sleep, the download, the model call, the stream, the aggregation
    of the reply), the same exception propagates to the caller, the module
    having been disabled, and the flag is false all the same. *)
Theorem processing_flag_released `{PyLib} self env rr s :
  _enabled s = true ->
  let r := process_request self env rr s in
  processing_flag (snd r) = false /\
  match request_body self env rr (conversations_dir (config self))
          (default VNone (user s !! conversation_key self)) s with
  | (Ok _, _) => fst r = Ok tt
  | (Raise e, _) => fst r = Raise e /\ _enabled (snd r) = false
  end.
Proof.
  intros Hen r. subst r. rewrite process_request_enabled by done.
  by destruct (request_body _ _ _ _ _ s) as [[[]|e] s1].
Qed.

Lemma processing_flag_released_witness :
  _enabled demo_state = true /\
  let r := process_request (lib := demo_lib) demo_module demo_env_down demo_text demo_state in
  processing_flag (snd r) = false /\
  match request_body (lib := demo_lib) demo_module demo_env_down demo_text
          (conversations_dir (config demo_module))
          (default VNone (user demo_state !! conversation_key demo_module)) demo_state with
  | (Ok _, _) => fst r = Ok tt
  | (Raise e, _) => fst r = Raise e /\ _enabled (snd r) = false
  end.
Proof.
  split; [reflexivity |].
  apply (processing_flag_released (H := demo_lib)
           demo_module demo_env_down demo_text demo_state).
  reflexivity.
Defined.

(** ** The conversation store *)

Lemma _delete_conversation_str env dir name s :
  let file := conversation_path dir name in
  let s1 := emit (EFile FExists file) (emit (ELog (LogDeleting (VStr name))) s) in
  let s2 := emit (EFile FRemove file) (emit (ELog (LogDeletingFile file)) s1) in
  _delete_conversation env dir (VStr name) s =
    match fs s !! file with
    | None => (Ok true, s1)
    | Some _ =>
        match env_io_fault env file with
        | Some fault =>
            (Ok false, emit (ELog (LogDeleteError (VStr name) (fault_exn fault))) s2)
        | None => (Ok true, set_fs (delete file (fs s)) s2)
        end
    end.
Proof.
  intros file s1 s2.
  unfold _delete_conversation, os_path_exists, os_remove, log, try_except,
    bind, gets, modify, lift, ret, raise. simpl.
  fold (conversation_path dir name). fold file.
  destruct (fs s !! file) as [text|] eqn:Hfile; simpl; [| done].
  destruct (env_io_fault env file) as [e|]; simpl; [done |].
  by rewrite Hfile.
Qed.

Lemma _delete_conversation_total env dir id s :
  exists b s1, _delete_conversation env dir id s = (Ok b, s1) /\
               user s1 = user s /\
               exists t, trace s1 = trace s ++ t.
Proof.
  destruct id as [|n|name].
  - exists false. eexists. split; [reflexivity |]. split; [done |]. simpl.
    eexists. by rewrite <- app_assoc.
  - exists false. eexists. split; [reflexivity |]. split; [done |]. simpl.
    eexists. by rewrite <- app_assoc.
  - rewrite _delete_conversation_str.
    destruct (fs s !! _); [destruct (env_io_fault env _) |];
      eexists; eexists; (split; [reflexivity |]); (split; [done |]); simpl;
      eexists; rewrite <- ?app_assoc; reflexivity.
Qed.

Lemma clear_conversation_no_identifier self env s :
  default VNone (user s !! conversation_key self) = VNone ->
  clear_conversation_for_user self env s = (Ok tt, s).
Proof.
  intros Hid. unfold clear_conversation_for_user, user_get, bind, gets.
  by rewrite Hid.
Qed.

Lemma clear_conversation_identifier self env s :
  default VNone (user s !! conversation_key self) <> VNone ->
  exists b s1,
    _delete_conversation env (conversations_dir (config self))
      (default VNone (user s !! conversation_key self)) s = (Ok b, s1) /\
    clear_conversation_for_user self env s =
      (Ok tt, emit (ESaveUser (<[conversation_key self := VNone]> (user s1)))
                (set_user (<[conversation_key self := VNone]> (user s1)) s1)).
Proof.
  intros Hid.
  destruct (_delete_conversation_total env (conversations_dir (config self))
              (default VNone (user s !! conversation_key self)) s)
    as (b & s1 & Hdel & _ & _).
  exists b, s1. split; [done |].
  unfold clear_conversation_for_user, user_get, user_setitem, save_user, bind, gets,
    modify, config_value.
  destruct (default VNone (user s !! conversation_key self)) eqn:E; [done | |];
    by rewrite Hdel.
Qed.

(** C8.  [clear_conversation_for_user] always returns normally.  When the
    user record has no conversation identifier (the key is missing or holds
    [None]) nothing at all happens: no file operation, no change to the
    record, no call to the user store.  Otherwise the identifier is set to
    [None] in the record and the record is handed to the user store as the
    last effect; for a string identifier the transcript file is removed when
    it exists and the removal is not refused, a missing file is not an error
    and leaves every file in place without any removal being attempted, and
    no other file is affected.  Clearing again is then a no-op. *)
Theorem clear_conversation_for_user_spec self env s :
  let key := conversation_key self in
  let r := clear_conversation_for_user self env s in
  fst r = Ok tt /\
  (default VNone (user s !! key) = VNone -> snd r = s) /\
  (default VNone (user s !! key) <> VNone ->
     user (snd r) = <[key := VNone]> (user s) /\
     (exists t, trace (snd r) = trace s ++ t ++ [ESaveUser (<[key := VNone]> (user s))]) /\
     (forall env', clear_conversation_for_user self env' (snd r) = (Ok tt, snd r)) /\
     forall name, user s !! key = Some (VStr name) ->
       let file := conversation_path (conversations_dir (config self)) name in
       (fs s !! file = None ->
          fs (snd r) = fs s /\
          trace (snd r) =
            trace s ++ [ELog (LogDeleting (VStr name)); EFile FExists file;
                        ESaveUser (<[key := VNone]> (user s))]) /\
       (env_io_fault env file = None -> fs (snd r) = delete file (fs s)) /\
       (forall other, other <> file -> fs (snd r) !! other = fs s !! other)).
Proof.
  intros key r. subst r.
  assert (default VNone (user s !! key) = VNone \/
          default VNone (user s !! key) <> VNone) as [Hnone|Hsome]
    by (destruct (default VNone (user s !! key)); auto).
  - rewrite clear_conversation_no_identifier by done. simpl. tauto.
  - destruct (clear_conversation_identifier self env s Hsome) as (b & s1 & Hdel & ->).
    fold key in Hdel |- *.
    destruct (_delete_conversation_total env (conversations_dir (config self))
                (default VNone (user s !! key)) s) as (b' & s1' & Hdel' & Huser & t & Htr).
    rewrite Hdel in Hdel'. injection Hdel' as <- <-.
    simpl. split; [done |]. split; [done |]. intros _.
    rewrite Huser. split; [done |]. split.
    { exists t. by rewrite Htr, app_assoc. }
    split.
    { intros env'. apply clear_conversation_no_identifier. simpl.
      fold key. by rewrite lookup_insert_eq. }
    intros name Hname. rewrite Hname in Hdel. simpl in Hdel.
    rewrite _delete_conversation_str in Hdel.
    set (file := conversation_path (conversations_dir (config self)) name) in *.
    destruct (fs s !! file) as [text|] eqn:Hfile.
    + destruct (env_io_fault env file) as [e|] eqn:Hfault;
        injection Hdel as <- <-; simpl.
      * split; [done |]. split; [done |]. done.
      * split; [done |]. split; [done |].
        intros other Hother. by rewrite lookup_delete_ne.
    + injection Hdel as <- <-. simpl.
      split; [intros _; split; [done | by rewrite <- !app_assoc] |].
      split; [| done].
      intros _. symmetry. by apply delete_id.
Qed.

Lemma _save_conversation_str `{PyLib} env dir name conversation s :
  let file := conversation_path dir name in
  let s1 := emit (EFile FOpenWrite file) (emit (ELog (LogSaving (VStr name))) s) in
  _save_conversation env dir (VStr name) conversation s =
    match env_io_fault env file with
    | Some (Refused e) => (Ok false, emit (ELog (LogSaveError (VStr name) e)) s1)
    | Some (Interrupted written e) =>
        (Ok false,
         emit (ELog (LogSaveError (VStr name) e))
           (set_fs (<[file := String.substring 0 written (json_dump conversation)]> (fs s))
              s1))
    | None => (Ok true, set_fs (<[file := json_dump conversation]> (fs s)) s1)
    end.
Proof.
  intros file s1.
  unfold _save_conversation, write_text, log, try_except, bind, modify, lift, ret, raise.
  simpl. fold (conversation_path dir name). fold file.
  by destruct (env_io_fault env file) as [[e|written e]|].
Qed.

Lemma _load_conversation_str `{PyLib} env dir name s :
  let file := conversation_path dir name in
  let s1 := emit (EFile FExists file) (emit (ELog (LogLoading (VStr name))) s) in
  let s2 := emit (EFile FOpenRead file) s1 in
  _load_conversation env dir (VStr name) s =
    match fs s !! file with
    | None => (Ok JNull, emit (ELog (LogFileNotExists file)) s1)
    | Some text =>
        match env_io_fault env file with
        | Some fault =>
            (Ok JNull, emit (ELog (LogLoadError (VStr name) (fault_exn fault))) s2)
        | None =>
            match json_load text with
            | Ok v => (Ok v, s2)
            | Raise e => (Ok JNull, emit (ELog (LogLoadError (VStr name) e)) s2)
            end
        end
    end.
Proof.
  intros file s1 s2.
  unfold _load_conversation, os_path_exists, read_text, log, try_except,
    bind, gets, modify, lift, ret, raise.
  simpl. fold (conversation_path dir name). fold file.
  destruct (fs s !! file) as [text|] eqn:Hfile; simpl; [| done].
  destruct (env_io_fault env file); simpl; [done |].
  rewrite Hfile. by destruct (json_load text).
Qed.

Lemma _load_conversation_total `{PyLib} env dir id s :
  exists v, fst (_load_conversation env dir id s) = Ok v.
Proof.
  destruct id as [|n|name]; [by eexists | by eexists |].
  rewrite _load_conversation_str.
  destruct (fs s !! _); [| by eexists].
  destruct (env_io_fault env _); [by eexists |].
  destruct (json_load _); by eexists.
Qed.

(** C5.  Saving a transcript (an ordered sequence of serialized turns) under
    a string identifier and loading it under the same identifier gives the
    same sequence back, in the same order: when neither [open] is refused
    the save reports success, and as long as the file is not touched in
    between the load returns the transcript, which [or []] leaves as it is.
    This rests on [json.load] reading back what [json.dump] wrote for this
    transcript.  Loading never raises: with no identifier, with no file
    under the identifier, with a file that cannot be opened or with a file
    that [json.load] rejects, the result is [None], which the caller turns
    into the empty transcript. *)
Theorem conversation_round_trip `{PyLib} env env' dir name (turns : list string) s :
  let transcript := JArr (map JStr turns) in
  let file := conversation_path dir name in
  json_load (json_dump transcript) = Ok transcript ->
  env_io_fault env file = None ->
  env_io_fault env' file = None ->
  (let (saved, s1) := _save_conversation env dir (VStr name) transcript s in
   saved = Ok true /\
   forall s2, fs s2 !! file = fs s1 !! file ->
     let loaded := fst (_load_conversation env' dir (VStr name) s2) in
     loaded = Ok transcript /\ py_or transcript (JArr []) = transcript) /\
  (forall e d i s0, exists v, fst (_load_conversation e d i s0) = Ok v) /\
  (forall e d s0, fst (_load_conversation e d VNone s0) = Ok JNull) /\
  (forall e d n s0, fs s0 !! conversation_path d n = None ->
     fst (_load_conversation e d (VStr n) s0) = Ok JNull) /\
  (forall e d n s0 text err,
     fs s0 !! conversation_path d n = Some text -> json_load text = Raise err ->
     fst (_load_conversation e d (VStr n) s0) = Ok JNull) /\
  (forall e d n s0 err, env_io_fault e (conversation_path d n) = Some err ->
     fst (_load_conversation e d (VStr n) s0) = Ok JNull) /\
  py_or JNull (JArr []) = JArr [].
Proof.
  intros transcript file Hjson Hsave Hload.
  split; [| split; [| split; [| split; [| split; [| split]]]]].
  - rewrite _save_conversation_str. fold file. rewrite Hsave.
    split; [done |]. intros s2 Hs2. simpl in Hs2.
    rewrite lookup_insert_eq in Hs2.
    rewrite _load_conversation_str. fold file. rewrite Hs2, Hload, Hjson.
    split; [done |].
    unfold py_or, transcript. by destruct turns.
  - intros. apply _load_conversation_total.
  - done.
  - intros e d n s0 Hnone. rewrite _load_conversation_str. by rewrite Hnone.
  - intros e d n s0 text err Hsome Herr. rewrite _load_conversation_str.
    rewrite Hsome, Herr. by destruct (env_io_fault e _).
  - intros e d n s0 err Hfault. rewrite _load_conversation_str.
    rewrite Hfault. by destruct (fs s0 !! _).
  - done.
Qed.

Lemma conversation_round_trip_witness :
  let turns := ["user:Hello"%string; "model:Hi there"%string] in
  let transcript := JArr (map JStr turns) in
  let file := conversation_path "conversations" "0b5f" in
  demo_load (demo_dump transcript) = Ok transcript /\
  env_io_fault demo_env file = None /\
  let (saved, s1) :=
    _save_conversation (lib := demo_lib) demo_env "conversations" (VStr "0b5f")
      transcript demo_state in
  saved = Ok true /\
  fst (_load_conversation (lib := demo_lib) demo_env "conversations" (VStr "0b5f") s1)
    = Ok transcript.
Proof.
  intros turns transcript file.
  split; [reflexivity |]. split; [reflexivity |].
  pose proof (conversation_round_trip (H := demo_lib) demo_env demo_env
                "conversations" "0b5f" turns demo_state
                eq_refl eq_refl eq_refl) as [Hround _].
  destruct (_save_conversation _ _ _ _ _) as [saved s1].
  destruct Hround as [Hsaved Hloaded]. split; [exact Hsaved |].
  exact (proj1 (Hloaded s1 eq_refl)).
Defined.

(** ** What each part of the request may do *)

#[global] Instance quiet_preorder : PreOrder quiet.
Proof. unfold quiet. apply _. Qed.

Lemma keeps_weaken (R R' : State -> State -> Prop) {A} (m : M A) :
  (forall s s', R s s' -> R' s s') -> keeps R m -> keeps R' m.
Proof. intros HR Hm s. apply HR, Hm. Qed.

Ltac unfold_calls :=
  unfold _load_conversation, _save_conversation, os_path_exists, read_text, write_text,
    time_time, time_sleep, log, requests_get, generate_content, send_message, save_user,
    user_setitem, user_get, external_cancel.

Lemma cool_down_frame self :
  keeps (both (emits cool_event) (both quiet (same _enabled))) (cool_down self).
Proof. unfold cool_down. unfold_calls. frame_walk. Qed.

Lemma ask_gemini_frame `{PyLib} env rr dir id :
  keeps (both (emits ask_event) (both quiet (both (same _enabled) (same _last_request_time))))
    (ask_gemini env rr dir id).
Proof. unfold ask_gemini. unfold_calls. frame_walk. Qed.

Lemma stream_chunks_frame pending at_end :
  keeps (both (emits relay_event) (both (same fs) (both (same user)
           (both (same error) (both (same _enabled) (same _last_request_time))))))
    (stream_chunks pending at_end).
Proof.
  induction pending as [|item rest IH]; simpl; unfold_calls; frame_walk; exact IH.
Qed.

Lemma finish_turn_frame `{PyLib} self env rr dir resp conv id :
  keeps (both (emits finish_event) (both (same response) (both (same error)
           (both (same cancel_requested) (both (same _enabled) (same _last_request_time))))))
    (finish_turn self env rr dir resp conv id).
Proof. unfold finish_turn. unfold_calls. frame_walk. Qed.

Lemma request_body_events `{PyLib} self env rr dir id :
  keeps (emits body_event) (request_body self env rr dir id).
Proof.
  unfold request_body. frame_walk.
  - eapply keeps_weaken; [| apply cool_down_frame].
    intros s s' [Hev _]. revert Hev. apply emits_weaken. unfold body_event. tauto.
  - eapply keeps_weaken; [| apply ask_gemini_frame].
    intros s s' [Hev _]. revert Hev. apply emits_weaken. unfold body_event. tauto.
  - eapply keeps_weaken; [| apply stream_chunks_frame].
    intros s s' [Hev _]. revert Hev. apply emits_weaken. unfold body_event. tauto.
  - eapply keeps_weaken; [| apply finish_turn_frame].
    intros s s' [Hev _]. revert Hev. apply emits_weaken. unfold body_event. tauto.
Qed.

Lemma body_event_not_final e : body_event e -> ~ is_final_send e.
Proof.
  unfold body_event.
  destruct e as [m| | | | |text [|]| |[] path]; try destruct m; simpl; tauto.
Qed.

(** C9, as the code has it.  An enabled call that returns normally relays
    exactly one final update, as its very last effect, carrying the response
    accumulated so far, whether the stream ran to its end or was cut short
    by a cancellation.  A call that raises relays no final update, and
    neither does a call turned away because the module is not enabled. *)
Theorem final_update_relayed_on_return `{PyLib} self env rr s :
  let (r, s') := process_request self env rr s in
  exists t, Forall (fun e => ~ is_final_send e) t /\
    if _enabled s
    then match r with
         | Ok _ => trace s' = trace s ++ t ++ [ESend (response s') true]
         | Raise _ => trace s' = trace s ++ t
         end
    else trace s' = trace s ++ t.
Proof.
  destruct (_enabled s) eqn:Hen.
  - rewrite process_request_enabled by done.
    destruct (request_body_events self env rr (conversations_dir (config self))
                (default VNone (user s !! conversation_key self)) s) as (t & Ht & Hev).
    destruct (request_body _ _ _ _ _ s) as [[[]|e] s1]; simpl in *;
      exists t; (split; [eapply Forall_impl; [exact Hev | apply body_event_not_final] |]).
    + by rewrite Ht, app_assoc.
    + done.
  - rewrite process_request_disabled by done.
    destruct (response_error _ _ _); exists [ELog LogNotInitialized];
      (split; [repeat constructor; simpl; tauto | done]).
Qed.

(** C9, the claim as stated fails: the module is enabled, the model service
    refuses the call, the exception propagates and no final update is ever
    relayed. *)
Lemma final_update_counterexample :
  let r := process_request (lib := demo_lib) demo_module demo_env_down demo_text demo_state in
  _enabled demo_state = true /\
  fst r = Raise (ExternalError "503") /\
  trace (snd r) =
    [ETime 100; ETime 100; ELog (LogLoading VNone); ELog LogSkipLoading; ELog LogAsking;
     EGenerate (PromptChat [mkContent "user" [PartText "Hello"]])] /\
  ~ exists text, In (ESend text true) (trace (snd r)).
Proof.
  split; [reflexivity |]. split; [vm_compute; reflexivity |].
  split; [vm_compute; reflexivity |].
  intros [text Hin]. vm_compute in Hin.
  repeat (destruct Hin as [Hin|Hin]; [discriminate |]). exact Hin.
Qed.

(** ** The chunk loop *)

Lemma append_assoc (a b c : string) : (a +:+ b) +:+ c = a +:+ (b +:+ c).
Proof.
  induction a as [|x a IH]; [reflexivity |].
  change (String x ((a +:+ b) +:+ c) = String x (a +:+ (b +:+ c))).
  by rewrite IH.
Qed.

Lemma append_empty_r (a : string) : a +:+ EmptyString = a.
Proof.
  induction a as [|x a IH]; [reflexivity |].
  change (String x (a +:+ EmptyString) = String x a).
  by rewrite IH.
Qed.

Lemma texts_app a b : texts (a ++ b) = texts a +:+ texts b.
Proof.
  induction a as [|c a IH]; [reflexivity |].
  change (default EmptyString (chunk_text c) +:+ texts (a ++ b) =
          (default EmptyString (chunk_text c) +:+ texts a) +:+ texts b).
  by rewrite IH, append_assoc.
Qed.

Lemma consume_response chunks s :
  response (consume chunks s) = response s +:+ texts chunks.
Proof.
  revert s. induction chunks as [|c rest IH]; intros s; simpl.
  - by rewrite append_empty_r.
  - rewrite IH. destruct (chunk_text c); simpl.
    + by rewrite append_assoc.
    + done.
Qed.

Lemma consume_trace chunks s :
  trace (consume chunks s) = trace s ++ relays (response s) chunks.
Proof.
  revert s. induction chunks as [|c rest IH]; intros s; simpl.
  - by rewrite app_nil_r.
  - rewrite IH. destruct (chunk_text c); simpl; [| done].
    by rewrite <- app_assoc.
Qed.

Lemma consume_frame chunks s :
  both (same fs) (both (same user) (both (same error) (both (same cancel_requested)
    (both (same _enabled) (both (same _last_request_time)
       (both (same processing_flag) (same clock)))))))
    s (consume chunks s).
Proof.
  revert s. induction chunks as [|c rest IH]; intros s; simpl.
  - repeat split.
  - etrans; [| apply IH]. destruct (chunk_text c); repeat split.
Qed.

Lemma stream_chunks_delivered chunks rest at_end s :
  cancel_requested s = false ->
  stream_chunks (map delivered chunks ++ rest) at_end s =
  stream_chunks rest at_end (consume chunks s).
Proof.
  revert s. induction chunks as [|c chunks IH]; intros s Hc; simpl; [done |].
  unfold external_cancel, send_message, bind, gets, modify, lift, ret. simpl.
  rewrite Hc. destruct (chunk_text c); simpl; by apply IH.
Qed.

Lemma stream_chunks_exhausted chunks at_end s :
  cancel_requested s = false ->
  stream_chunks (map delivered chunks) at_end s =
    (Ok tt, if at_end then set_cancel_requested true (consume chunks s)
            else consume chunks s).
Proof.
  intros Hc. rewrite <- (app_nil_r (map delivered chunks)).
  rewrite stream_chunks_delivered by done. simpl. by destruct at_end.
Qed.

Lemma stream_chunks_interrupted chunks item rest at_end s :
  cancel_requested s = false ->
  it_cancel item = true ->
  stream_chunks (map delivered chunks ++ item :: rest) at_end s =
    (match it_chunk item with Ok _ => Ok tt | Raise e => Raise e end,
     set_cancel_requested true (consume chunks s)).
Proof.
  intros Hc Hit. rewrite stream_chunks_delivered by done. simpl.
  unfold external_cancel, bind, gets, modify, lift, ret. rewrite Hit.
  by destruct (it_chunk item).
Qed.

Lemma request_body_split `{PyLib} self env rr dir id s :
  request_body self env rr dir id s =
    match reach_stream self env rr dir id s with
    | (Ok (reply, conversation, id'), s1) =>
        match stream_chunks (items reply) (end_cancel reply) s1 with
        | (Ok _, s2) => finish_turn self env rr dir reply conversation id' s2
        | (Raise e, s2) => (Raise e, s2)
        end
    | (Raise e, s1) => (Raise e, s1)
    end.
Proof.
  unfold request_body, reach_stream, bind, modify.
  destruct (cool_down self _) as [[[]|e] s0]; [| done].
  by destruct (ask_gemini env rr dir id s0) as [[[[reply conversation] id']|e] s1].
Qed.

Lemma reach_stream_frame `{PyLib} self env rr dir id s :
  let s1 := snd (reach_stream self env rr dir id s) in
  emits (fun e => cool_event e \/ ask_event e) s s1 /\
  fs s1 = fs s /\ user s1 = user s /\ response s1 = response s /\
  error s1 = error s /\ cancel_requested s1 = cancel_requested s /\
  _enabled s1 = _enabled s.
Proof.
  assert (keeps (both (emits (fun e => cool_event e \/ ask_event e))
                   (both quiet (same _enabled)))
            (reach_stream self env rr dir id)) as Hk.
  { unfold reach_stream. frame_walk.
    - eapply keeps_weaken; [| apply cool_down_frame].
      intros x y (Hev & Hq & He). split; [| done].
      revert Hev. apply emits_weaken. tauto.
    - eapply keeps_weaken; [| apply ask_gemini_frame].
      intros x y (Hev & Hq & He & _). split; [| done].
      revert Hev. apply emits_weaken. tauto. }
  destruct (Hk s) as (Hev & (Hfs & Hu & Hr & Her & Hc) & Hen).
  unfold same in *. simpl. tauto.
Qed.

Lemma relays_are_relays acc chunks : Forall relay_event (relays acc chunks).
Proof.
  revert acc. induction chunks as [|c rest IH]; intros acc; simpl; [constructor |].
  destruct (chunk_text c); [constructor; [exact I | apply IH] | apply IH].
Qed.

Lemma finish_turn_cancelled `{PyLib} self env rr dir reply conversation id s :
  cancel_requested s = true ->
  finish_turn self env rr dir reply conversation id s = (Ok tt, emit (ELog LogCanceled) s).
Proof.
  intros Hc. unfold finish_turn, log, bind, gets, modify. by rewrite Hc.
Qed.

Lemma drop_delivered chunks rest :
  drop (List.length chunks) (map delivered chunks ++ rest) = rest.
Proof.
  rewrite <- (length_map delivered chunks). apply drop_app_length.
Qed.

(** C1.  Take a text or image request on an enabled module that gets as far
    as a streamed reply, the cancel flag being down when the request starts,
    and suppose the flag is first seen raised right after the chunks
    [chunks]: they arrive while it is down, and it is up by the time the next
    item arrives or, if there is none, by the end of the stream.  Then the
    loop processes exactly these chunks and no more (the item whose arrival
    reveals the cancellation is dropped unprocessed); the response
    accumulator is what it was at the start followed by the text of these
    chunks, in order, chunks without a text part adding nothing; after the
    in-progress updates for these chunks nothing is relayed but the closing
    update; no file is written and the user store is not called; files and
    user record are unchanged.  The call returns normally unless the
    interrupted pull itself fails, in which case that exception propagates. *)
Theorem cancellation_after_chunks `{PyLib} self env rr s reply conversation id s1 chunks :
  _enabled s = true ->
  cancel_requested s = false ->
  reach_stream self env rr (conversations_dir (config self))
    (default VNone (user s !! conversation_key self)) s
    = (Ok (reply, conversation, id), s1) ->
  cancelled_after chunks reply ->
  let (r, s') := process_request self env rr s in
  r = interrupted_pull chunks reply /\
  response s' = response s +:+ texts chunks /\
  trace s' =
    trace s1 ++ relays (response s) chunks ++
    match r with
    | Ok _ => [ELog LogCanceled; ESend (response s +:+ texts chunks) true]
    | Raise _ => []
    end /\
  cancel_requested s' = true /\
  user s' = user s /\
  fs s' = fs s /\
  exists t, trace s' = trace s ++ t /\
            Forall (fun e => ~ is_write e /\ ~ is_save_user e) t.
Proof.
  intros Hen Hc Hreach (rest & Hitems & Hrest).
  rewrite process_request_enabled by done.
  rewrite request_body_split, Hreach.
  pose proof (reach_stream_frame self env rr (conversations_dir (config self))
                (default VNone (user s !! conversation_key self)) s) as Hframe.
  rewrite Hreach in Hframe. simpl in Hframe.
  destruct Hframe as ((t0 & Ht0 & Hev0) & Hfs & Hu & Hr & _ & Hc1 & _).
  rewrite Hc in Hc1.
  destruct (consume_frame chunks s1) as (Cfs & Cu & _ & Cc & _).
  unfold same in Cfs, Cu, Cc.
  assert (Forall (fun e => ~ is_write e /\ ~ is_save_user e)
            (t0 ++ relays (response s) chunks)) as Hquiet.
  { apply Forall_app. split.
    - eapply Forall_impl; [exact Hev0 |].
      intros e He.
      destruct e as [m| | | | |text [|]| |[] path]; try destruct m; simpl in *; tauto.
    - eapply Forall_impl; [apply relays_are_relays |].
      intros e He. destruct e as [m| | | | |text [|]| |op path]; simpl in *; tauto. }
  unfold interrupted_pull. rewrite Hitems, drop_delivered.
  destruct rest as [|item rest].
  - rewrite app_nil_r, stream_chunks_exhausted by done. rewrite Hrest.
    rewrite finish_turn_cancelled by done. simpl.
    rewrite consume_response, consume_trace, Hr, Cu, Cfs, Hu, Hfs.
    repeat split; try done.
    + by rewrite <- !app_assoc.
    + exists (t0 ++ relays (response s) chunks ++
              [ELog LogCanceled; ESend (response s +:+ texts chunks) true]).
      split; [by rewrite Ht0, <- !app_assoc |].
      rewrite app_assoc. apply Forall_app. split; [exact Hquiet |].
      repeat constructor; simpl; tauto.
  - rewrite stream_chunks_interrupted by done.
    destruct (it_chunk item) as [c|e].
    + rewrite finish_turn_cancelled by done. simpl.
      rewrite consume_response, consume_trace, Hr, Cu, Cfs, Hu, Hfs.
      repeat split; try done.
      * by rewrite <- !app_assoc.
      * exists (t0 ++ relays (response s) chunks ++
                [ELog LogCanceled; ESend (response s +:+ texts chunks) true]).
        split; [by rewrite Ht0, <- !app_assoc |].
        rewrite app_assoc. apply Forall_app. split; [exact Hquiet |].
        repeat constructor; simpl; tauto.
    + simpl.
      rewrite consume_response, consume_trace, Hr, Cu, Cfs, Hu, Hfs.
      repeat split; try done.
      * by rewrite app_nil_r.
      * exists (t0 ++ relays (response s) chunks).
        split; [by rewrite Ht0, <- !app_assoc |]. exact Hquiet.
Qed.

Lemma cancellation_after_chunks_witness :
  let chunks := [mkChunk [PartText "Hi"]] in
  let s1 := snd (reach_stream (H := demo_lib) demo_module demo_env_cancelled demo_text
                   "conversations" VNone demo_state) in
  _enabled demo_state = true /\
  cancel_requested demo_state = false /\
  cancelled_after chunks demo_reply_cancelled /\
  let (r, s') :=
    process_request (lib := demo_lib) demo_module demo_env_cancelled demo_text demo_state in
  r = Ok tt /\
  response s' = "Hi"%string /\
  trace s' = trace s1 ++ [ESend "Hi" false; ELog LogCanceled; ESend "Hi" true] /\
  user s' = ∅ /\ fs s' = ∅.
Proof.
  intros chunks s1.
  assert (cancelled_after chunks demo_reply_cancelled) as Hcancel.
  { eexists. split; [reflexivity | reflexivity]. }
  split; [reflexivity |]. split; [reflexivity |]. split; [exact Hcancel |].
  assert (reach_stream (H := demo_lib) demo_module demo_env_cancelled demo_text
            (conversations_dir (config demo_module))
            (default VNone (user demo_state !! conversation_key demo_module)) demo_state
          = (Ok (demo_reply_cancelled, JArr [JStr "user:Hello"], VStr "0b5f"), s1)) as Hreach
    by (vm_compute; reflexivity).
  pose proof (cancellation_after_chunks (H := demo_lib) demo_module demo_env_cancelled
                demo_text demo_state demo_reply_cancelled
                (JArr [JStr "user:Hello"]) (VStr "0b5f") s1 chunks
                eq_refl eq_refl Hreach Hcancel) as Hthm.
  destruct (process_request _ _ _ _) as [r s'].
  destruct Hthm as (Hr & Hresp & Htrace & _ & Hu & Hfs & _).
  rewrite Hr in Htrace. repeat split; assumption.
Defined.

(** ** The end of a turn *)

Lemma request_body_finish `{PyLib} self env rr dir id s :
  request_body self env rr dir id s =
    match reach_finish self env rr dir id s with
    | (Ok (reply, conversation, id'), s2) =>
        finish_turn self env rr dir reply conversation id' s2
    | (Raise e, s2) => (Raise e, s2)
    end.
Proof.
  rewrite request_body_split. unfold reach_finish, bind, ret.
  destruct (reach_stream self env rr dir id s) as [[[[reply conversation] id']|e] s1];
    [| done].
  simpl. by destruct (stream_chunks _ _ s1) as [[[]|e] s2].
Qed.

Lemma reach_finish_frame `{PyLib} self env rr dir id s :
  let s2 := snd (reach_finish self env rr dir id s) in
  emits (fun e => cool_event e \/ ask_event e \/ relay_event e) s s2 /\
  fs s2 = fs s /\ user s2 = user s /\ error s2 = error s /\ _enabled s2 = _enabled s.
Proof.
  assert (keeps (both (emits (fun e => cool_event e \/ ask_event e \/ relay_event e))
                   (both (same fs) (both (same user) (both (same error) (same _enabled)))))
            (reach_finish self env rr dir id)) as Hk.
  { unfold reach_finish. frame_walk.
    - intros s0. pose proof (reach_stream_frame self env rr dir id s0) as Hf.
      simpl in Hf. destruct Hf as (Hev & Hfs & Hu & _ & Her & _ & Hen).
      repeat split; try done. revert Hev. apply emits_weaken. tauto.
    - eapply keeps_weaken; [| apply stream_chunks_frame].
      intros x y (Hev & Hfs & Hu & Her & Hen & _). repeat split; try done.
      revert Hev. apply emits_weaken. tauto. }
  destruct (Hk s) as (Hev & Hfs & Hu & Her & Hen). unfold same in *. simpl. tauto.
Qed.

Lemma _save_conversation_refused `{PyLib} env dir id conversation s s3 :
  _save_conversation env dir id conversation s = (Ok false, s3) ->
  user s3 = user s /\ response s3 = response s /\
  (forall other, (forall name, id = VStr name -> other <> conversation_path dir name) ->
     fs s3 !! other = fs s !! other) /\
  ((forall name written e, id = VStr name ->
      env_io_fault env (conversation_path dir name) <> Some (Interrupted written e)) ->
   fs s3 = fs s) /\
  exists t failure, trace s3 = trace s ++ t /\ In (ELog failure) t /\
                    is_save_failure failure /\
                    Forall (fun e => ~ is_save_user e /\ ~ is_send e) t.
Proof.
  destruct id as [|n|name].
  - intros [= <-]. simpl. repeat split.
    exists [ELog (LogSaving VNone); ELog LogSkipSaving], LogSkipSaving.
    rewrite <- app_assoc. repeat split; simpl; try tauto.
    repeat constructor; simpl; tauto.
  - intros [= <-]. simpl. repeat split.
    exists [ELog (LogSaving (VInt n)); ELog (LogSaveError (VInt n) TypeError)],
      (LogSaveError (VInt n) TypeError).
    rewrite <- app_assoc. repeat split; simpl; try tauto.
    repeat constructor; simpl; tauto.
  - rewrite _save_conversation_str.
    destruct (env_io_fault env _) as [[e|written e]|] eqn:Hfault; [| | discriminate].
    + intros [= <-]. simpl. repeat split.
      eexists [ELog (LogSaving (VStr name)); EFile FOpenWrite _;
               ELog (LogSaveError (VStr name) e)], (LogSaveError (VStr name) e).
      rewrite <- !app_assoc. repeat split; simpl; try tauto.
      repeat constructor; simpl; tauto.
    + intros [= <-]. simpl. split; [done |]. split; [done |]. split; [| split].
      * intros other Hother. rewrite lookup_insert_ne; [done |].
        intros Heq. by apply (Hother name).
      * intros Hnot. by destruct (Hnot name written e).
      * eexists [ELog (LogSaving (VStr name)); EFile FOpenWrite _;
                 ELog (LogSaveError (VStr name) e)], (LogSaveError (VStr name) e).
        rewrite <- !app_assoc. repeat split; simpl; try tauto.
        repeat constructor; simpl; tauto.
Qed.

Lemma _save_conversation_total `{PyLib} env dir id conversation s :
  exists saved, fst (_save_conversation env dir id conversation s) = Ok saved.
Proof.
  destruct id as [|n|name]; [by eexists | by eexists |].
  rewrite _save_conversation_str.
  destruct (env_io_fault env _) as [[e|written e]|]; by eexists.
Qed.

(** C7.  Take a text request on an enabled module whose stream has been read
    to the end of the loop with the cancel flag still down, and whose reply
    has been aggregated into a model turn.  If the save of the extended
    transcript reports failure, then [process_request] still returns
    normally: the failure is logged, not raised; the conversation identifier
    written into the user record under the module's key is [None]; and the
    record, carrying that [None], is handed to the user store right before
    the closing update.  No file other than the conversation's own has
    changed, and that one only if the write failed after the file had been
    opened.  A save without identifier is one such failure: it writes
    nothing and reports [False]. *)
Theorem failed_save_drops_identifier `{PyLib} self env rr s reply conversation id s2
    model_parts conversation' :
  let dir := conversations_dir (config self) in
  let key := conversation_key self in
  _enabled s = true ->
  str_truthy (image_url rr) = false ->
  reach_finish self env rr dir (default VNone (user s !! key)) s
    = (Ok (reply, conversation, id), s2) ->
  cancel_requested s2 = false ->
  final_parts reply = Ok model_parts ->
  py_append conversation (JStr (Content_to_json (mkContent "model" model_parts)))
    = Ok conversation' ->
  fst (_save_conversation env dir id conversation' s2) = Ok false ->
  (let (r, s') := process_request self env rr s in
   r = Ok tt /\
   user s' = <[key := VNone]> (user s) /\
   user s' !! key = Some VNone /\
   (forall other, (forall name, id = VStr name -> other <> conversation_path dir name) ->
      fs s' !! other = fs s !! other) /\
   ((forall name written e, id = VStr name ->
       env_io_fault env (conversation_path dir name) <> Some (Interrupted written e)) ->
    fs s' = fs s) /\
   exists t failure,
     trace s' = trace s2 ++ t ++ [ESaveUser (<[key := VNone]> (user s));
                                  ESend (response s') true] /\
     In (ELog failure) t /\ is_save_failure failure /\
     Forall (fun e => ~ is_save_user e /\ ~ is_send e) t) /\
  (forall c s0, exists s3,
     _save_conversation env dir VNone c s0 = (Ok false, s3) /\ fs s3 = fs s0).
Proof.
  intros dir key Hen Himg Hreach Hc Hparts Happend Hsave.
  split; [| intros c s0; eexists; split; reflexivity].
  rewrite process_request_enabled by done. fold dir key.
  rewrite request_body_finish, Hreach.
  pose proof (reach_finish_frame self env rr dir (default VNone (user s !! key)) s) as Hf.
  rewrite Hreach in Hf. simpl in Hf. destruct Hf as (_ & Hfs & Hu & _).
  unfold finish_turn, bind, gets, lift. rewrite Hc, Himg, Hparts, Happend. simpl.
  destruct (_save_conversation env dir id conversation' s2) as [saved s3] eqn:Hrun.
  simpl in Hsave. subst saved.
  destruct (_save_conversation_refused _ _ _ _ _ _ Hrun)
    as (Su & Sr & Sother & Sfs & t & failure & St & Hin & Hfail & Hquiet).
  unfold user_setitem, save_user, modify, bind. simpl.
  rewrite Su, Hu.
  split; [done |]. split; [done |]. split; [by rewrite lookup_insert_eq |].
  split; [| split].
  - intros other Hother. rewrite <- Hfs. by apply Sother.
  - intros Hnot. rewrite <- Hfs. by apply Sfs.
  - exists t, failure. repeat split; try done.
    by rewrite St, <- !app_assoc.
Qed.

Lemma failed_save_drops_identifier_witness :
  let dir := conversations_dir (config demo_module) in
  let key := conversation_key demo_module in
  let s := set_user {[ key := VStr "77aa" ]} demo_state in
  let conversation := JArr [JStr "user:Hello"] in
  let conversation' := JArr [JStr "user:Hello"; JStr "model:Hi there"] in
  let s2 := snd (reach_finish (H := demo_lib) demo_module demo_env_readonly demo_text dir
                   (VStr "77aa") s) in
  _enabled s = true /\
  str_truthy (image_url demo_text) = false /\
  cancel_requested s2 = false /\
  fst (_save_conversation (lib := demo_lib) demo_env_readonly dir (VStr "77aa")
         conversation' s2) = Ok false /\
  let (r, s') :=
    process_request (lib := demo_lib) demo_module demo_env_readonly demo_text s in
  r = Ok tt /\ user s' !! key = Some VNone /\ fs s' = fs s.
Proof.
  intros dir key s conversation conversation' s2.
  assert (cancel_requested s2 = false) as Hc by (vm_compute; reflexivity).
  assert (fst (_save_conversation (lib := demo_lib) demo_env_readonly dir (VStr "77aa")
                 conversation' s2) = Ok false) as Hsave by (vm_compute; reflexivity).
  assert (reach_finish (H := demo_lib) demo_module demo_env_readonly demo_text dir
            (default VNone (user s !! key)) s
          = (Ok (demo_reply, conversation, VStr "77aa"), s2)) as Hreach
    by (vm_compute; reflexivity).
  split; [reflexivity |]. split; [reflexivity |]. split; [exact Hc |].
  split; [exact Hsave |].
  pose proof (failed_save_drops_identifier (H := demo_lib) demo_module demo_env_readonly
                demo_text s demo_reply conversation (VStr "77aa") s2
                [PartText "Hi there"] conversation'
                eq_refl eq_refl Hreach Hc eq_refl eq_refl Hsave) as [Hthm _].
  destruct (process_request _ _ _ _) as [r s'].
  destruct Hthm as (Hr & _ & Hkey & _ & Hfs & _).
  split; [exact Hr |]. split; [exact Hkey |].
  apply Hfs. intros name written e _. discriminate.
Defined.

(** ** The cool down *)

(** Whenever the cool down completes, the new time stamp is a clock reading
    that lies at least [cooldown_seconds] after the previous one. *)
Lemma cool_down_spacing self s s' :
  cool_down self s = (Ok tt, s') ->
  _last_request_time s' >= _last_request_time s + cooldown_seconds (config self) /\
  _last_request_time s' = clock s' /\
  clock s <= clock s'.
Proof.
  unfold cool_down, time_time, time_sleep, log, bind, gets, modify, ret, raise,
    config_value. simpl.
  destruct (_ <=? _) eqn:Hle; simpl.
  - destruct (_ <? 0) eqn:Hneg; simpl; [discriminate |].
    intros [= <-]. simpl. lia.
  - intros [= <-]. simpl. lia.
Qed.

(** The cool down fails exactly when the remaining time, computed from a
    third clock reading, has become negative; the time stamp is then left
    as it was. *)
Lemma cool_down_raises self s e s' :
  cool_down self s = (Raise e, s') ->
  e = ValueError /\ _last_request_time s' = _last_request_time s /\
  exists checked slept,
    checked - _last_request_time s <= cooldown_seconds (config self) /\
    _last_request_time s + cooldown_seconds (config self) - slept < 0 /\
    clock s <= checked <= slept.
Proof.
  unfold cool_down, time_time, time_sleep, log, bind, gets, modify, ret, raise,
    config_value. simpl.
  destruct (_ <=? _) eqn:Hle; simpl; [| discriminate].
  destruct (_ <? 0) eqn:Hneg; simpl; [| discriminate].
  intros [= <- <-]. simpl. split; [done |]. split; [done |].
  eexists _, _. split; [apply Z.leb_le, Hle |]. split; [apply Z.ltb_lt, Hneg |].
  lia.
Qed.

(** C4, at the failing input.  The previous request was stamped at 90 and
    the cool down is 10.  The first reading of the clock gives 100: the
    elapsed time is not above the cool down, so the module decides to wait.
    By the third reading, the one inside the argument of [sleep], the clock
    shows 101, the remaining time is -1 and [time.sleep] raises ValueError.
    The request fails before any model call, the time stamp is not updated
    and the module is left disabled. *)
Theorem cool_down_race :
  let r := process_request (lib := demo_lib) demo_module demo_env demo_text demo_state_race in
  _enabled demo_state_race = true /\
  fst r = Raise ValueError /\
  trace (snd r) = [ETime 100; ETime 100; ELog (LogTooFrequent 0); ETime 101] /\
  _last_request_time (snd r) = 90 /\
  _enabled (snd r) = false.
Proof. vm_compute. repeat split. Qed.

(** ** A cancel flag that stays up *)

Lemma set_cancel_requested_id s :
  cancel_requested s = true -> set_cancel_requested true s = s.
Proof. destruct s. simpl. by intros ->. Qed.

Lemma stream_chunks_cancelled pending at_end s :
  cancel_requested s = true ->
  stream_chunks pending at_end s =
    (match pending with
     | item :: _ => match it_chunk item with Ok _ => Ok tt | Raise e => Raise e end
     | [] => Ok tt
     end, s).
Proof.
  intros Hc. destruct pending as [|item rest]; simpl.
  - unfold external_cancel, modify, ret.
    destruct at_end; [by rewrite set_cancel_requested_id | done].
  - unfold external_cancel, bind, gets, modify, lift, ret.
    destruct (it_cancel item); rewrite ?set_cancel_requested_id by done;
      destruct (it_chunk item); by rewrite ?Hc.
Qed.

Lemma reach_stream_timestamp `{PyLib} self env rr dir id s asked s1 :
  reach_stream self env rr dir id s = (Ok asked, s1) ->
  _last_request_time s1 >= _last_request_time s + cooldown_seconds (config self) /\
  clock s <= _last_request_time s1.
Proof.
  unfold reach_stream, bind, modify.
  destruct (cool_down self _) as [[[]|e] s0] eqn:Hcool; [| discriminate].
  apply cool_down_spacing in Hcool. simpl in Hcool.
  destruct (ask_gemini_frame env rr dir id s0) as (_ & _ & _ & Hlast).
  unfold same in Hlast.
  destruct (ask_gemini env rr dir id s0) as [[a|e] s1'] eqn:Hask; [| discriminate].
  intros [= <- <-]. simpl in Hlast. lia.
Qed.

Lemma process_request_cancelled `{PyLib} self env rr s :
  _enabled s = true ->
  cancel_requested s = true ->
  process_request self env rr s =
    match reach_stream self env rr (conversations_dir (config self))
            (default VNone (user s !! conversation_key self)) s with
    | (Ok (reply, _, _), s1) =>
        match stream_chunks (items reply) (end_cancel reply) s1 with
        | (Ok _, _) =>
            (Ok tt, emit (ESend (response s1) true)
                      (set_processing_flag false (emit (ELog LogCanceled) s1)))
        | (Raise e, _) => (Raise e, set_processing_flag false (set_enabled false s1))
        end
    | (Raise e, s1) => (Raise e, set_processing_flag false (set_enabled false s1))
    end.
Proof.
  intros Hen Hc. rewrite process_request_enabled by done.
  rewrite request_body_split.
  pose proof (reach_stream_frame self env rr (conversations_dir (config self))
                (default VNone (user s !! conversation_key self)) s) as Hf.
  destruct (reach_stream _ _ _ _ _ s) as [[[[reply conversation] id']|e] s1]; [| done].
  simpl in Hf. destruct Hf as (_ & _ & _ & _ & _ & Hc1 & _). rewrite Hc in Hc1.
  rewrite stream_chunks_cancelled by done.
  destruct (items reply) as [|item rest].
  - by rewrite finish_turn_cancelled.
  - destruct (it_chunk item); [by rewrite finish_turn_cancelled | done].
Qed.

Lemma initialize_resets_cancel self env proxy s :
  cancel_requested (snd (initialize self env proxy s)) = false.
Proof.
  unfold initialize, log, try_except, bind, gets, modify, ret, raise. simpl.
  repeat case_match; simplify_eq/=; done.
Qed.

Lemma process_request_sticky `{PyLib} self env rr s :
  cancel_requested s = true ->
  cancel_requested (snd (process_request self env rr s)) = true.
Proof.
  intros Hc. destruct (_enabled s) eqn:Hen.
  - rewrite process_request_cancelled by done.
    pose proof (reach_stream_frame self env rr (conversations_dir (config self))
                  (default VNone (user s !! conversation_key self)) s) as Hf.
    destruct (reach_stream _ _ _ _ _ s) as [[[[reply conversation] id']|e] s1];
      simpl in Hf; destruct Hf as (_ & _ & _ & _ & _ & Hc1 & _); rewrite Hc in Hc1;
      [| done].
    by destruct (stream_chunks _ _ s1) as [[[]|e] s2].
  - rewrite process_request_disabled by done.
    by destruct (response_error _ _ _).
Qed.

Lemma serve_sticky `{PyLib} self calls s :
  cancel_requested s = true ->
  Forall (fun s0 => cancel_requested s0 = true) (serve self calls s).
Proof.
  revert s. induction calls as [|c calls IH]; intros s Hc; simpl; constructor.
  - exact Hc.
  - apply IH. unfold dispatch. by apply process_request_sticky.
Qed.

(** C10, as the code has it.  [process_request] never lowers the cancel
    flag, and [initialize] always does.  So a call on an enabled module that
    starts with the flag up processes no chunk: the response accumulator,
    the user record and the files are as they were, nothing is written,
    the user store is not called and no in-progress update is relayed.  If
    the call returns normally, the time stamp has moved on by at least the
    cool down and the call ends with the cancellation log line followed by
    the final update.  The flag is still up afterwards, hence up at the
    start of every later call, whatever the requests are. *)
Theorem cancel_flag_stays_up `{PyLib} self env rr s :
  cancel_requested s = true ->
  (let (r, s') := process_request self env rr s in
   cancel_requested s' = true /\
   (_enabled s = true ->
      response s' = response s /\ user s' = user s /\ fs s' = fs s /\
      (exists t, trace s' = trace s ++ t /\
         Forall (fun e => ~ is_write e /\ ~ is_save_user e /\ ~ relay_event e) t) /\
      (r = Ok tt ->
         _last_request_time s' >= _last_request_time s + cooldown_seconds (config self) /\
         clock s <= _last_request_time s' /\
         exists t, trace s' = trace s ++ t ++ [ELog LogCanceled; ESend (response s) true]))) /\
  (forall calls, Forall (fun s0 => cancel_requested s0 = true) (serve self calls s)) /\
  (forall proxy env0 s0, cancel_requested (snd (initialize self env0 proxy s0)) = false).
Proof.
  intros Hc.
  split; [| split; [intros calls; by apply serve_sticky
                   | intros; apply initialize_resets_cancel]].
  pose proof (process_request_sticky self env rr s Hc) as Hsticky.
  destruct (process_request self env rr s) as [r s'] eqn:Hrun.
  split; [exact Hsticky |]. intros Hen.
  rewrite process_request_cancelled in Hrun by done.
  pose proof (reach_stream_frame self env rr (conversations_dir (config self))
                (default VNone (user s !! conversation_key self)) s) as Hf.
  destruct (reach_stream _ _ _ _ _ s) as [[[[reply conversation] id']|e] s1] eqn:Hreach;
    simpl in Hf; destruct Hf as ((t0 & Ht0 & Hev0) & Hfs & Hu & Hr & _ & _ & _).
  - apply reach_stream_timestamp in Hreach. 
    assert (Forall (fun e => ~ is_write e /\ ~ is_save_user e /\ ~ relay_event e) t0) as Hq.
    { eapply Forall_impl; [exact Hev0 |]. intros ev Hev.
      destruct ev as [m| | | | |text [|]| |[] path]; try destruct m; simpl in *; tauto. }
    destruct (stream_chunks _ _ s1) as [[[]|e] s2]; injection Hrun as <- <-; simpl.
    + rewrite Hr, Hu, Hfs. repeat split; try done; try lia.
      * exists (t0 ++ [ELog LogCanceled; ESend (response s) true]).
        split; [by rewrite Ht0, <- !app_assoc |].
        apply Forall_app. split; [exact Hq |]. repeat constructor; simpl; tauto.
      * exists t0. by rewrite Ht0, <- !app_assoc.
    + rewrite Hr, Hu, Hfs. repeat split; try done.
      exists t0. by split.
  - injection Hrun as <- <-. simpl. rewrite Hr, Hu, Hfs.
    repeat split; try done.
    exists t0. split; [done |].
    eapply Forall_impl; [exact Hev0 |]. intros ev Hev.
    destruct ev as [m| | | | |text [|]| |[] path]; try destruct m; simpl in *; tauto.
Qed.

Lemma cancel_flag_stays_up_witness :
  cancel_requested demo_state_cancelled = true /\
  let (r, s') :=
    process_request (lib := demo_lib) demo_module demo_env demo_text demo_state_cancelled in
  r = Ok tt /\
  cancel_requested s' = true /\
  response s' = EmptyString /\ user s' = ∅ /\ fs s' = ∅ /\
  _last_request_time s' >= 10 /\
  Forall (fun s0 => cancel_requested s0 = true)
    (serve (H := demo_lib) demo_module
       [demo_call demo_env demo_text; demo_call demo_env demo_image] demo_state_cancelled).
Proof.
  split; [reflexivity |].
  pose proof (cancel_flag_stays_up (H := demo_lib) demo_module demo_env demo_text
                demo_state_cancelled eq_refl) as (Hcall & Hserve & _).
  assert (fst (process_request (lib := demo_lib) demo_module demo_env demo_text
                 demo_state_cancelled) = Ok tt) as Hr by (vm_compute; reflexivity).
  destruct (process_request _ _ _ _) as [r s']. simpl in Hr.
  destruct Hcall as (Hc & Hrest).
  destruct (Hrest eq_refl) as (Hresp & Hu & Hfs & _ & Htime).
  destruct (Htime Hr) as (Hlast & _).
  repeat split; try assumption. apply Hserve.
Defined.

(** C10, the claim as stated fails: the module is enabled and the cancel
    flag is up, but the model service refuses the call; the exception
    propagates and no final update is relayed. *)
Lemma cancel_flag_counterexample :
  let r := process_request (lib := demo_lib) demo_module demo_env_down demo_text
             demo_state_cancelled in
  _enabled demo_state_cancelled = true /\
  cancel_requested demo_state_cancelled = true /\
  fst r = Raise (ExternalError "503") /\
  ~ exists text, In (ESend text true) (trace (snd r)).
Proof.
  split; [reflexivity |]. split; [reflexivity |].
  split; [vm_compute; reflexivity |].
  intros [text Hin]. vm_compute in Hin.
  repeat (destruct Hin as [Hin|Hin]; [discriminate |]). exact Hin.
Qed.

(** * Further properties of the module *)

(** ** Initialization *)

Lemma initialize_run self env proxy s :
  let s0 := set_cancel_requested false
              (set_processing_flag false (set_model false (set_enabled false s))) in
  let s1 := emit (ELog (LogInitializing (chosen_proxy self proxy))) s0 in
  let s2 := if str_truthy (chosen_proxy self proxy)
            then set_http_proxy (chosen_proxy self proxy) s1 else s1 in
  initialize self env proxy s =
    if module_enabled (config self)
    then
      let s3 := set_vision_model true (set_model true (set_enabled true s2)) in
      match env_client_setup env with
      | Some e => (Raise e, set_enabled false s3)
      | None => (Ok tt, emit (ELog LogInitialized) s3)
      end
    else (Raise ModuleDisabled,
          set_enabled false (emit (ELog LogDisabledInConfig) (set_enabled false s2))).
Proof.
  unfold initialize, chosen_proxy, log, try_except, bind, gets, modify, ret, raise,
    config_value. simpl.
  destruct (str_truthy proxy) eqn:Hp; simpl.
  - rewrite Hp. destruct (module_enabled (config self)); simpl; [| done].
    by destruct (env_client_setup env).
  - destruct (negb (proxy_setting (config self) =? ""))%string eqn:Hc; simpl.
    + destruct (negb (proxy_setting (config self) =? "auto"))%string; simpl.
      * rewrite Hc. destruct (module_enabled (config self)); simpl; [| done].
        by destruct (env_client_setup env).
      * rewrite Hp. destruct (module_enabled (config self)); simpl; [| done].
        by destruct (env_client_setup env).
    + rewrite Hp. destruct (module_enabled (config self)); simpl; [| done].
      by destruct (env_client_setup env).
Qed.

(** X1.  [initialize] returns normally exactly when the configuration
    enables the module and the client can be set up; otherwise it raises
    (the "disabled in config" exception, or whatever the client set-up
    raised).  The module is enabled afterwards exactly when [initialize]
    returned normally, and then both models are present.  In every case the
    processing and cancel flags are down, and the container, the files and
    the time stamp are untouched. *)
Theorem initialize_outcome self env proxy s :
  let (r, s') := initialize self env proxy s in
  (r = Ok tt <-> module_enabled (config self) = true /\ env_client_setup env = None) /\
  (module_enabled (config self) = false -> r = Raise ModuleDisabled) /\
  (forall e, module_enabled (config self) = true -> env_client_setup env = Some e ->
             r = Raise e) /\
  (_enabled s' = true <-> r = Ok tt) /\
  (_enabled s' = true -> _model s' = true /\ _vision_model s' = true) /\
  processing_flag s' = false /\ cancel_requested s' = false /\
  fs s' = fs s /\ user s' = user s /\ response s' = response s /\ error s' = error s /\
  _last_request_time s' = _last_request_time s.
Proof.
  rewrite initialize_run.
  destruct (module_enabled (config self)) eqn:Hcfg;
    [destruct (env_client_setup env) as [e|] eqn:Hsetup |];
    destruct (str_truthy (chosen_proxy self proxy)); simpl;
    repeat split; intros; destruct_and?; simplify_eq; done.
Qed.

(** X2.  The proxy: an explicit non-empty argument wins; without one the
    configured proxy is used unless it is empty or ["auto"]; and the
    environment variable [http_proxy] is set to the chosen proxy, or left as
    it was when there is none.  This happens before the enabled check, so
    also when initialization then fails. *)
Theorem initialize_sets_proxy self env proxy s :
  let s' := snd (initialize self env proxy s) in
  (forall p, proxy = Some p -> p <> EmptyString -> http_proxy s' = Some p) /\
  (str_truthy proxy = false ->
     proxy_setting (config self) <> EmptyString ->
     proxy_setting (config self) <> "auto"%string ->
     http_proxy s' = Some (proxy_setting (config self))) /\
  (str_truthy proxy = false ->
     proxy_setting (config self) = EmptyString \/ proxy_setting (config self) = "auto"%string ->
     http_proxy s' = http_proxy s).
Proof.
  rewrite initialize_run. unfold chosen_proxy.
  assert (forall a b : string, a <> b -> (a =? b)%string = false) as Hneq
    by (intros a b Hab; by apply String.eqb_neq).
  split; [| split].
  - intros p -> Hp. simpl. rewrite (Hneq _ _ Hp). simpl. rewrite (Hneq _ _ Hp). simpl.
    by repeat case_match.
  - intros Hproxy Hne Hauto. rewrite Hproxy, (Hneq _ _ Hne), (Hneq _ _ Hauto). simpl.
    rewrite (Hneq _ _ Hne). simpl. by repeat case_match.
  - intros Hproxy Hcfg. rewrite Hproxy.
    assert ((negb (proxy_setting (config self) =? "") &&
             negb (proxy_setting (config self) =? "auto"))%string = false) as ->.
    { destruct Hcfg as [-> | ->]; reflexivity. }
    rewrite Hproxy. by repeat case_match.
Qed.

(** X3.  A module that has been constructed but not initialized serves
    nothing: its flags are down, its time stamp is zero, and a request is
    turned away with the error line in the log as the only effect.  The
    clock is not read and the time stamp stays at zero. *)
Theorem new_module_rejects `{PyLib} self env rr s :
  let s0 := snd (__init__ s) in
  _enabled s0 = false /\ processing_flag s0 = false /\ cancel_requested s0 = false /\
  _last_request_time s0 = 0 /\ _model s0 = false /\ _vision_model s0 = false /\
  let (r, s') := process_request self env rr s0 in
  trace s' = trace s ++ [ELog LogNotInitialized] /\
  _last_request_time s' = 0 /\ _enabled s' = false /\ fs s' = fs s /\
  (r = Ok tt -> error s' = true /\ processing_flag s' = false).
Proof.
  simpl. repeat split.
  rewrite process_request_disabled by done.
  by destruct (response_error _ _ _).
Qed.

(** ** Time stamps *)

Lemma stream_chunks_clock pending at_end :
  keeps (both (same clock) (both (same ticks) (same processing_flag)))
    (stream_chunks pending at_end).
Proof.
  induction pending as [|item rest IH]; simpl; unfold_calls; frame_walk; exact IH.
Qed.

Lemma ask_gemini_clock `{PyLib} env rr dir id :
  keeps (both (same clock) (both (same ticks) (same processing_flag)))
    (ask_gemini env rr dir id).
Proof. unfold ask_gemini. unfold_calls. frame_walk. Qed.

Lemma finish_turn_clock `{PyLib} self env rr dir resp conv id :
  keeps (both (same clock) (both (same ticks) (same processing_flag)))
    (finish_turn self env rr dir resp conv id).
Proof. unfold finish_turn. unfold_calls. frame_walk. Qed.

(** The state in which the body leaves the time stamp and the clock, in
    terms of what the cool down did. *)
Lemma request_body_after_cool_down `{PyLib} self env rr dir id s :
  let (r, s') := request_body self env rr dir id s in
  match cool_down self (set_processing_flag true s) with
  | (Ok _, s0) =>
      _last_request_time s' = _last_request_time s0 /\ clock s' = clock s0 /\
      exists t0 t, trace s0 = trace s ++ t0 /\ trace s' = trace s0 ++ t /\
                   Forall (fun e => ask_event e \/ relay_event e \/ finish_event e) t
  | (Raise e, s0) => r = Raise e /\ s' = s0
  end.
Proof.
  unfold request_body, bind, modify.
  destruct (cool_down_frame self (set_processing_flag true s)) as ((t0 & Ht0 & _) & _).
  destruct (cool_down self _) as [[[]|e] s0]; [| done]. simpl in Ht0.
  destruct (ask_gemini_frame env rr dir id s0) as ((t1 & Ht1 & Hev1) & _ & _ & Hl1).
  destruct (ask_gemini_clock env rr dir id s0) as (Hc1 & _).
  unfold same in *.
  destruct (ask_gemini env rr dir id s0) as [[[[reply conversation] id']|e] s1];
    simpl in *.
  - destruct (stream_chunks_frame (items reply) (end_cancel reply) s1)
      as ((t2 & Ht2 & Hev2) & _ & _ & _ & _ & Hl2).
    destruct (stream_chunks_clock (items reply) (end_cancel reply) s1) as (Hc2 & _).
    unfold same in *.
    destruct (stream_chunks _ _ s1) as [[[]|e] s2]; simpl in *.
    + destruct (finish_turn_frame self env rr dir reply conversation id' s2)
        as ((t3 & Ht3 & Hev3) & _ & _ & _ & _ & Hl3).
      destruct (finish_turn_clock self env rr dir reply conversation id' s2) as (Hc3 & _).
      unfold same in *.
      destruct (finish_turn _ _ _ _ _ _ _ s2) as [r3 s3]; simpl in *.
      split; [congruence |]. split; [congruence |].
      exists t0, (t1 ++ t2 ++ t3). split; [done |].
      split; [by rewrite Ht3, Ht2, Ht1, <- !app_assoc |].
      rewrite !Forall_app. repeat split; (eapply Forall_impl; [eassumption |]);
        simpl; tauto.
    + split; [congruence |]. split; [congruence |].
      exists t0, (t1 ++ t2). split; [done |].
      split; [by rewrite Ht2, Ht1, <- !app_assoc |].
      rewrite !Forall_app. repeat split; (eapply Forall_impl; [eassumption |]);
        simpl; tauto.
  - split; [done |]. split; [done |].
    exists t0, t1. split; [done |]. split; [done |].
    eapply Forall_impl; [eassumption |]. simpl. tauto.
Qed.

(** X4.  The cool down as a guarantee on time stamps: a call never moves
    the time stamp by less than [cooldown_seconds].  On a module that is not
    enabled the stamp stays; on an enabled module it either stays (the cool
    down itself failed) or becomes a clock reading at least
    [cooldown_seconds] after the previous stamp and not before the call
    started; and a call that returns normally has always moved it. *)
Theorem time_stamps_are_spaced `{PyLib} self env rr s :
  let (r, s') := process_request self env rr s in
  (_last_request_time s' = _last_request_time s \/
   _last_request_time s' >= _last_request_time s + cooldown_seconds (config self) /\
   clock s <= _last_request_time s' <= clock s') /\
  (_enabled s = false -> _last_request_time s' = _last_request_time s) /\
  (_enabled s = true -> r = Ok tt ->
     _last_request_time s' >= _last_request_time s + cooldown_seconds (config self) /\
     clock s <= _last_request_time s' <= clock s').
Proof.
  destruct (_enabled s) eqn:Hen.
  - rewrite process_request_enabled by done.
    pose proof (request_body_after_cool_down self env rr (conversations_dir (config self))
                  (default VNone (user s !! conversation_key self)) s) as Hb.
    destruct (request_body _ _ _ _ _ s) as [r1 s1].
    destruct (cool_down self (set_processing_flag true s)) as [[[]|e] s0] eqn:Hcool.
    + apply cool_down_spacing in Hcool. simpl in Hcool.
      destruct Hb as (Hl & Hc & _).
      destruct r1 as [[]|e]; simpl; rewrite Hl, Hc;
        (split; [right; lia |]); (split; [done |]); intros; try done; lia.
    + apply cool_down_raises in Hcool. simpl in Hcool.
      destruct Hcool as (_ & Hl & _). destruct Hb as (-> & ->). simpl.
      split; [by left |]. split; done.
  - rewrite process_request_disabled by done.
    destruct (response_error _ _ _); simpl; (split; [by left |]); split; done.
Qed.

Lemma cool_down_sleeps self s :
  _last_request_time s <= clock s ->
  let (r, s') := cool_down self s in
  _last_request_time s' <= clock s' /\
  exists t, trace s' = trace s ++ t /\
            Forall (sleep_within (cooldown_seconds (config self))) t.
Proof.
  intros Hinv.
  unfold cool_down, time_time, time_sleep, log, bind, gets, modify, ret, raise,
    config_value. simpl.
  destruct (_ <=? _) eqn:Hle; simpl.
  - destruct (_ <? 0) eqn:Hneg; simpl.
    + split; [lia |]. eexists. rewrite <- !app_assoc. split; [reflexivity |].
      repeat constructor.
    + apply Z.ltb_ge in Hneg. split; [lia |].
      eexists. rewrite <- !app_assoc. split; [reflexivity |].
      repeat constructor; simpl; lia.
  - split; [lia |]. eexists. rewrite <- !app_assoc. split; [reflexivity |].
    repeat constructor.
Qed.

(** X5.  On a module whose time stamp is not in the future, a call never
    sleeps longer than [cooldown_seconds] (nor for a negative time), and the
    time stamp is still not in the future when the call is over, so the
    bound holds for the calls that follow as well. *)
Theorem sleep_is_bounded `{PyLib} self env rr s :
  _last_request_time s <= clock s ->
  let (r, s') := process_request self env rr s in
  _last_request_time s' <= clock s' /\
  exists t, trace s' = trace s ++ t /\
            Forall (sleep_within (cooldown_seconds (config self))) t.
Proof.
  intros Hinv. destruct (_enabled s) eqn:Hen.
  - rewrite process_request_enabled by done.
    pose proof (request_body_after_cool_down self env rr (conversations_dir (config self))
                  (default VNone (user s !! conversation_key self)) s) as Hb.
    pose proof (cool_down_sleeps self (set_processing_flag true s) Hinv) as Hcool.
    destruct (request_body _ _ _ _ _ s) as [r1 s1].
    destruct (cool_down self (set_processing_flag true s)) as [[[]|e] s0].
    + destruct Hb as (Hl & Hc & t0 & t & Ht0 & Ht & Hev).
      destruct Hcool as (Hinv0 & t0' & Ht0' & Hsl). simpl in Ht0, Ht0'.
      rewrite Ht0 in Ht0'. apply app_inv_head in Ht0'. subst t0'.
      assert (Forall (sleep_within (cooldown_seconds (config self))) t) as Hquiet.
      { eapply Forall_impl; [exact Hev |]. intros ev Hk.
        destruct ev as [m| | | | | | |]; simpl in *; tauto. }
      destruct r1 as [[]|e]; simpl; rewrite Hl, Hc; (split; [exact Hinv0 |]).
      * exists (t0 ++ t ++ [ESend (response s1) true]).
        split; [by rewrite Ht, Ht0, <- !app_assoc |].
        rewrite !Forall_app. repeat split; try done. by repeat constructor.
      * exists (t0 ++ t). split; [by rewrite Ht, Ht0, <- !app_assoc |].
        rewrite Forall_app. by split.
    + destruct Hb as (-> & ->). simpl. exact Hcool.
  - rewrite process_request_disabled by done.
    destruct (response_error _ _ _); simpl; (split; [exact Hinv |]);
      exists [ELog LogNotInitialized]; (split; [done |]); by repeat constructor.
Qed.

Lemma sleep_is_bounded_witness :
  _last_request_time demo_state_busy <= clock demo_state_busy /\
  let (r, s') :=
    process_request (lib := demo_lib) demo_module demo_env demo_image demo_state_busy in
  _last_request_time s' <= clock s' /\
  exists t, trace s' = trace demo_state_busy ++ t /\
            Forall (sleep_within (cooldown_seconds (config demo_module))) t.
Proof.
  assert (_last_request_time demo_state_busy <= clock demo_state_busy) as Hinv
    by (vm_compute; discriminate).
  split; [exact Hinv |].
  exact (sleep_is_bounded (H := demo_lib) demo_module demo_env demo_image
           demo_state_busy Hinv).
Defined.

(** ** Failures *)

(** X6.  A failure is fatal to the instance.  When a call on an enabled
    module raises, the module is left disabled with the processing flag
    down, and whatever request comes next (any container, any answer of the
    outside world) is turned away on the not-enabled path: the error line
    is the only effect, so no clock reading, download or model call is made
    for it, and the module stays disabled. *)
Theorem failure_disables_module `{PyLib} self env rr s e s1 :
  _enabled s = true ->
  process_request self env rr s = (Raise e, s1) ->
  _enabled s1 = false /\ processing_flag s1 = false /\
  forall next,
    let (r2, s2) := dispatch self next s1 in
    trace s2 = trace s1 ++ [ELog LogNotInitialized] /\
    _enabled s2 = false /\
    _last_request_time s2 = _last_request_time s1 /\
    fs s2 = fs s1.
Proof.
  intros Hen Hrun. rewrite process_request_enabled in Hrun by done.
  destruct (request_body _ _ _ _ _ s) as [[[]|e'] s0]; [discriminate |].
  injection Hrun as <- <-. simpl. split; [done |]. split; [done |].
  intros next. unfold dispatch.
  rewrite process_request_disabled by done.
  by destruct (response_error _ _ _).
Qed.

Lemma failure_disables_module_witness :
  let run := process_request (lib := demo_lib) demo_module demo_env_down demo_text
               demo_state in
  _enabled demo_state = true /\
  fst run = Raise (ExternalError "503") /\
  _enabled (snd run) = false /\
  let (r2, s2) := dispatch (H := demo_lib) demo_module (demo_call demo_env demo_text)
                    (snd run) in
  trace s2 = trace (snd run) ++ [ELog LogNotInitialized] /\ _enabled s2 = false.
Proof.
  intros run.
  assert (process_request (lib := demo_lib) demo_module demo_env_down demo_text demo_state
          = (Raise (ExternalError "503"), snd run)) as Hrun by (vm_compute; reflexivity).
  destruct (failure_disables_module (H := demo_lib) demo_module demo_env_down demo_text
              demo_state _ _ eq_refl Hrun) as (Hdis & _ & Hnext).
  split; [reflexivity |]. split; [vm_compute; reflexivity |]. split; [exact Hdis |].
  specialize (Hnext (demo_call demo_env demo_text)).
  destruct (dispatch _ _ _) as [r2 s2]. tauto.
Defined.

Lemma response_error_unknown_language `{PyLib} self n arg :
  Z.of_nat (List.length (messages self)) <= n ->
  response_error self (VInt n) arg = Raise IndexError.
Proof.
  intros Hn. unfold response_error, list_getitem.
  assert ((n <? 0) = false) as Hneg by lia. rewrite !Hneg.
  rewrite lookup_ge_None_2 by lia. done.
Qed.

Lemma response_error_missing_text `{PyLib} self n table arg :
  0 <= n ->
  messages self !! Z.to_nat n = Some table ->
  table !! "response_error"%string = None ->
  response_error self (VInt n) arg = Raise KeyError.
Proof.
  intros Hn Htable Hkey. unfold response_error, list_getitem, dict_getitem.
  assert ((n <? 0) = false) as Hneg by lia. rewrite !Hneg.
  by rewrite Htable, Hkey.
Qed.

(** X7.  The rejection needs its localized text.  On a module that is not
    enabled, when the message table has no entry for the user's language
    (IndexError), or the entry has no [response_error] text (KeyError), or
    the stored language is not a number (TypeError), [process_request]
    raises that exception instead of returning: the container's response
    and error flag are not written and the processing flag is not reset, it
    keeps the value it had. *)
Theorem rejection_needs_message `{PyLib} self env rr s e :
  _enabled s = false ->
  response_error self (default (VInt 0) (user s !! "lang"%string)) not_initialized = Raise e ->
  (let (r, s') := process_request self env rr s in
   r = Raise e /\
   response s' = response s /\ error s' = error s /\
   processing_flag s' = processing_flag s /\
   trace s' = trace s ++ [ELog LogNotInitialized]) /\
  (forall n arg, Z.of_nat (List.length (messages self)) <= n ->
     response_error self (VInt n) arg = Raise IndexError) /\
  (forall n table arg, 0 <= n -> messages self !! Z.to_nat n = Some table ->
     table !! "response_error"%string = None ->
     response_error self (VInt n) arg = Raise KeyError) /\
  (forall t arg, response_error self (VStr t) arg = Raise TypeError) /\
  (forall arg, response_error self VNone arg = Raise TypeError).
Proof.
  intros Hen Herr.
  split; [| split; [| split; [| split]]].
  - rewrite process_request_disabled by done. by rewrite Herr.
  - intros. by apply response_error_unknown_language.
  - intros. by eapply response_error_missing_text.
  - done.
  - done.
Qed.

Lemma rejection_needs_message_witness :
  let s := set_processing_flag true (set_enabled false demo_state) in
  _enabled s = false /\
  response_error (lib := demo_lib) demo_module_mute
    (default (VInt 0) (user s !! "lang"%string)) not_initialized = Raise KeyError /\
  let (r, s') := process_request (lib := demo_lib) demo_module_mute demo_env demo_text s in
  r = Raise KeyError /\ response s' = response s /\ error s' = false /\
  processing_flag s' = true.
Proof.
  intros s.
  assert (response_error (lib := demo_lib) demo_module_mute
            (default (VInt 0) (user s !! "lang"%string)) not_initialized = Raise KeyError)
    as Herr by (vm_compute; reflexivity).
  split; [reflexivity |]. split; [exact Herr |].
  destruct (rejection_needs_message (H := demo_lib) demo_module_mute demo_env demo_text s
              KeyError eq_refl Herr) as [Hrun _].
  destruct (process_request _ _ _ _) as [r s'].
  destruct Hrun as (Hr & Hresp & Herror & Hflag & _).
  repeat split; assumption.
Defined.

(** ** What the model is asked *)

Lemma _load_conversation_run `{PyLib} env dir id s :
  exists v s1, _load_conversation env dir id s = (Ok v, s1) /\
    fs s1 = fs s /\ user s1 = user s /\ _model s1 = _model s /\
    exists t, trace s1 = trace s ++ t /\ Forall ask_event t.
Proof.
  assert (keeps (both (same fs) (both (same user) (both (same _model) (emits ask_event))))
            (_load_conversation env dir id)) as Hk.
  { unfold_calls. frame_walk. }
  destruct (_load_conversation_total env dir id s) as [v Hv].
  specialize (Hk s). destruct (_load_conversation env dir id s) as [r s1].
  simpl in *. subst r. exists v, s1. split; [done |].
  destruct Hk as (? & ? & ? & ?). done.
Qed.

Lemma ask_gemini_text `{PyLib} env rr dir id s v s1 :
  str_truthy (image_url rr) = false ->
  _load_conversation env dir id s = (Ok v, s1) ->
  ask_gemini env rr dir id s =
    match py_append (py_or v (JArr [])) (user_turn rr) with
    | Raise e => (Raise e, s1)
    | Ok conversation =>
        let s2 := emit (ELog LogAsking) s1 in
        if _model s1
        then
          match entries_of conversation with
          | Raise e => (Raise e, s2)
          | Ok entries =>
              match contents_from_json entries with
              | Raise e => (Raise e, s2)
              | Ok history =>
                  match env_generate env (PromptChat history) with
                  | Ok reply =>
                      (Ok (reply, conversation, session_id env id),
                       emit (EGenerate (PromptChat history)) s2)
                  | Raise e => (Raise e, emit (EGenerate (PromptChat history)) s2)
                  end
              end
          end
        else (Raise AttributeError, s2)
    end.
Proof.
  intros Himg Hload.
  unfold ask_gemini, generate_content, log, bind, gets, modify, lift, ret, raise.
  rewrite Himg, Hload. unfold user_turn, session_id.
  destruct (py_append _ _) as [conversation|e]; simpl; [| done].
  destruct (_model s1); simpl; [| done].
  destruct (entries_of conversation) as [entries|e]; simpl; [| done].
  destruct (contents_from_json entries) as [history|e]; simpl; [| done].
  by destruct (env_generate env (PromptChat history)).
Qed.

(** X8.  A text request whose stored transcript is missing or unusable
    starts over.  Whenever [_load_conversation] comes back with nothing (no
    identifier, no file, a file that cannot be opened or parsed) or with an
    empty document, the model is asked with a history made of the user's
    message alone, the conversation handed on is that single turn, and the
    identifier is the stored one, or a fresh UUID when there was none.
    With no identifier, no file is looked at. *)
Theorem unusable_transcript_starts_over `{PyLib} env rr dir id s v s1 c :
  str_truthy (image_url rr) = false ->
  _model s = true ->
  _load_conversation env dir id s = (Ok v, s1) ->
  truthy v = false ->
  Content_from_json (Content_to_json (mkContent "user" [PartText (request rr)])) = Ok c ->
  (let (r, s') := ask_gemini env rr dir id s in
   trace s' = trace s1 ++ [ELog LogAsking; EGenerate (PromptChat [c])] /\
   fs s' = fs s /\
   match env_generate env (PromptChat [c]) with
   | Ok reply => r = Ok (reply, JArr [user_turn rr], session_id env id)
   | Raise e => r = Raise e
   end) /\
  (id = VNone ->
   session_id env id = VStr (env_uuid env) /\
   trace s1 = trace s ++ [ELog (LogLoading VNone); ELog LogSkipLoading]).
Proof.
  intros Himg Hmodel Hload Hv Hc.
  destruct (_load_conversation_run env dir id s) as (v' & s1' & Hload' & Hfs & _ & Hm & _).
  rewrite Hload in Hload'. injection Hload' as <- <-.
  split.
  - rewrite (ask_gemini_text env rr dir id s v s1) by done.
    unfold py_or. rewrite Hv. simpl. rewrite Hm, Hmodel. unfold user_turn. simpl.
    rewrite Hc. destruct (env_generate env (PromptChat [c])); simpl;
      by rewrite <- !app_assoc.
  - intros ->. split; [done |].
    injection Hload as _ <-. simpl. by rewrite <- app_assoc.
Qed.

Lemma unusable_transcript_starts_over_witness :
  let s1 := snd (_load_conversation (lib := demo_lib) demo_env "conversations"
                   (VStr "77aa") demo_state_known) in
  str_truthy (image_url demo_text) = false /\
  _model demo_state_known = true /\
  _load_conversation (lib := demo_lib) demo_env "conversations" (VStr "77aa")
    demo_state_known = (Ok JNull, s1) /\
  let (r, s') := ask_gemini (lib := demo_lib) demo_env demo_text "conversations"
                   (VStr "77aa") demo_state_known in
  r = Ok (demo_reply, JArr [JStr "user:Hello"], VStr "77aa").
Proof.
  intros s1.
  assert (_load_conversation (lib := demo_lib) demo_env "conversations" (VStr "77aa")
            demo_state_known = (Ok JNull, s1)) as Hload by (vm_compute; reflexivity).
  split; [reflexivity |]. split; [reflexivity |]. split; [exact Hload |].
  destruct (unusable_transcript_starts_over (H := demo_lib) demo_env demo_text
              "conversations" (VStr "77aa") demo_state_known JNull s1
              (mkContent "user" [PartText "Hello"])
              eq_refl eq_refl Hload eq_refl eq_refl) as [Hrun _].
  destruct (ask_gemini _ _ _ _ _) as [r s']. exact (proj2 (proj2 Hrun)).
Defined.

Lemma contents_from_json_turns `{PyLib} (turns : list string) (stored : list Content) :
  Forall2 (fun turn c => Content_from_json turn = Ok c) turns stored ->
  contents_from_json (map JStr turns) = Ok stored.
Proof.
  induction 1 as [|turn c turns stored Hturn _ IH]; simpl; [done |].
  by rewrite Hturn, IH.
Qed.

(** X9.  A text request with a stored transcript continues it.  When the
    file under the user's identifier can be read and holds a list of
    serialized turns, the model is asked with the contents these turns
    stand for, one per turn and in the stored order, followed by the
    content of the user's message; the conversation handed on is the stored
    list with the user's turn appended, and the identifier is unchanged.
    The file itself is not modified by the question. *)
Theorem stored_transcript_is_continued `{PyLib} env rr dir name s text turns stored asked :
  let file := conversation_path dir name in
  str_truthy (image_url rr) = false ->
  _model s = true ->
  fs s !! file = Some text ->
  env_io_fault env file = None ->
  json_load text = Ok (JArr (map JStr turns)) ->
  Forall2 (fun turn c => Content_from_json turn = Ok c) turns stored ->
  Content_from_json (Content_to_json (mkContent "user" [PartText (request rr)])) = Ok asked ->
  let (r, s') := ask_gemini env rr dir (VStr name) s in
  trace s' =
    trace s ++ [ELog (LogLoading (VStr name)); EFile FExists file; EFile FOpenRead file;
                ELog LogAsking; EGenerate (PromptChat (stored ++ [asked]))] /\
  fs s' = fs s /\
  match env_generate env (PromptChat (stored ++ [asked])) with
  | Ok reply => r = Ok (reply, JArr (map JStr turns ++ [user_turn rr]), VStr name)
  | Raise e => r = Raise e
  end.
Proof.
  intros file Himg Hmodel Hfile Hfault Hjson Hstored Hasked.
  pose proof (_load_conversation_str env dir name s) as Hload. simpl in Hload.
  fold file in Hload. rewrite Hfile, Hfault, Hjson in Hload.
  rewrite (ask_gemini_text env rr dir (VStr name) s _ _ Himg Hload).
  assert (py_append (py_or (JArr (map JStr turns)) (JArr [])) (user_turn rr)
          = Ok (JArr (map JStr turns ++ [user_turn rr]))) as ->.
  { unfold py_or. by destruct turns. }
  assert (contents_from_json (map JStr turns ++ [user_turn rr]) = Ok (stored ++ [asked]))
    as Hhist.
  { change (map JStr turns ++ [user_turn rr])
      with (map JStr turns ++
            map JStr [Content_to_json (mkContent "user" [PartText (request rr)])]).
    rewrite <- map_app. apply contents_from_json_turns.
    apply Forall2_app; [exact Hstored |]. by constructor. }
  simpl. rewrite Hmodel, Hhist.
  destruct (env_generate env (PromptChat (stored ++ [asked]))); simpl;
    by rewrite <- !app_assoc.
Qed.

Lemma stored_transcript_is_continued_witness :
  let s := set_fs {[ "conversations/77aa.json"%string :=
                       demo_dump (JArr [JStr "user:Hello"; JStr "model:Hi there"]) ]}
             demo_state_known in
  let rr := mkRequest "Again" None in
  let stored := [mkContent "user" [PartText "Hello"];
                 mkContent "model" [PartText "Hi there"]] in
  fs s !! conversation_path "conversations" "77aa" =
    Some (demo_dump (JArr [JStr "user:Hello"; JStr "model:Hi there"])) /\
  Forall2 (fun turn c => demo_from_json turn = Ok c)
    ["user:Hello"%string; "model:Hi there"%string] stored /\
  let (r, s') := ask_gemini (lib := demo_lib) demo_env rr "conversations" (VStr "77aa") s in
  r = Ok (demo_reply,
          JArr [JStr "user:Hello"; JStr "model:Hi there"; JStr "user:Again"],
          VStr "77aa") /\
  In (EGenerate (PromptChat (stored ++ [mkContent "user" [PartText "Again"]]))) (trace s').
Proof.
  intros s rr stored.
  assert (fs s !! conversation_path "conversations" "77aa" =
            Some (demo_dump (JArr [JStr "user:Hello"; JStr "model:Hi there"]))) as Hfile
    by (vm_compute; reflexivity).
  assert (Forall2 (fun turn c => demo_from_json turn = Ok c)
            ["user:Hello"%string; "model:Hi there"%string] stored) as Hstored
    by (repeat constructor).
  split; [exact Hfile |]. split; [exact Hstored |].
  pose proof (stored_transcript_is_continued (H := demo_lib) demo_env rr "conversations"
                "77aa" s _ ["user:Hello"%string; "model:Hi there"%string] stored
                (mkContent "user" [PartText "Again"])
                eq_refl eq_refl Hfile eq_refl eq_refl Hstored eq_refl) as Hrun.
  destruct (ask_gemini _ _ _ _ _) as [r s'].
  destruct Hrun as (Htrace & _ & Hr). split; [exact Hr |].
  rewrite Htrace. apply in_or_app. right. simpl. tauto.
Defined.

(** X10.  A stored file that parses to something other than a list and is
    not empty (an object, a number, a string, [true]) is fatal to the
    request: [conversation.append] raises AttributeError before the model is
    asked, nothing is downloaded or generated, and no file is changed.  As
    the failure happens inside the [try] statement the module ends up
    disabled. *)
Theorem foreign_document_is_fatal `{PyLib} env rr dir id s v s1 :
  str_truthy (image_url rr) = false ->
  _load_conversation env dir id s = (Ok v, s1) ->
  truthy v = true ->
  (forall l, v <> JArr l) ->
  let (r, s') := ask_gemini env rr dir id s in
  r = Raise AttributeError /\
  s' = s1 /\
  fs s' = fs s /\
  exists t, trace s' = trace s ++ t /\ Forall (fun e => ~ is_model_call e) t.
Proof.
  intros Himg Hload Hv Hlist.
  destruct (_load_conversation_run env dir id s) as (v' & s1' & Hload' & Hfs & _ & _ & Hev).
  rewrite Hload in Hload'. injection Hload' as <- <-.
  rewrite (ask_gemini_text env rr dir id s v s1) by done.
  unfold py_or. rewrite Hv.
  assert (py_append v (user_turn rr) = Raise AttributeError) as ->.
  { destruct v as [| | | |l|]; try done. by destruct (Hlist l). }
  split; [done |]. split; [done |]. split; [done |].
  assert (keeps (emits (fun e => ~ is_model_call e)) (_load_conversation env dir id)) as Hk.
  { unfold_calls. frame_walk. }
  specialize (Hk s). by rewrite Hload in Hk.
Qed.

Lemma foreign_document_is_fatal_witness :
  let s1 := snd (_load_conversation (lib := demo_lib_object) demo_env "conversations"
                   (VStr "77aa") demo_state_stored) in
  let v := JObj [("role"%string, JStr "user")] in
  _load_conversation (lib := demo_lib_object) demo_env "conversations" (VStr "77aa")
    demo_state_stored = (Ok v, s1) /\
  truthy v = true /\
  fst (ask_gemini (lib := demo_lib_object) demo_env demo_text "conversations"
         (VStr "77aa") demo_state_stored) = Raise AttributeError /\
  fst (process_request (lib := demo_lib_object) demo_module demo_env demo_text
         demo_state_stored) = Raise AttributeError.
Proof.
  intros s1 v.
  assert (_load_conversation (lib := demo_lib_object) demo_env "conversations"
            (VStr "77aa") demo_state_stored = (Ok v, s1)) as Hload
    by (vm_compute; reflexivity).
  split; [exact Hload |]. split; [reflexivity |]. split.
  - pose proof (foreign_document_is_fatal (H := demo_lib_object) demo_env demo_text
                  "conversations" (VStr "77aa") demo_state_stored v s1
                  eq_refl Hload eq_refl) as Hrun.
    destruct (ask_gemini _ _ _ _ _) as [r s'].
    apply Hrun. intros l. discriminate.
  - vm_compute. reflexivity.
Defined.

(** ** The end of a successful turn *)

Lemma _save_conversation_accepted `{PyLib} env dir id conversation s s3 :
  _save_conversation env dir id conversation s = (Ok true, s3) ->
  exists name, id = VStr name /\
    env_io_fault env (conversation_path dir name) = None /\
    s3 = set_fs (<[conversation_path dir name := json_dump conversation]> (fs s))
           (emit (EFile FOpenWrite (conversation_path dir name))
              (emit (ELog (LogSaving (VStr name))) s)).
Proof.
  destruct id as [|n|name]; [discriminate | discriminate |].
  rewrite _save_conversation_str.
  destruct (env_io_fault env _) as [[e|written e]|] eqn:Hfault;
    [discriminate | discriminate |].
  intros [= <-]. by exists name.
Qed.

(** X11.  A text turn that completes is persisted as a whole.  When the
    stream has been read to the end with the cancel flag down, the reply has
    been aggregated and the save reports success, then the user's identifier
    is a string, the file under it holds exactly the conversation with the
    model's turn appended (every other file being as before), the user
    record carries that identifier under the module's key and is handed to
    the user store, and the call returns normally after the final update. *)
Theorem completed_turn_is_persisted `{PyLib} self env rr s reply conversation id s2
    model_parts conversation' :
  let dir := conversations_dir (config self) in
  let key := conversation_key self in
  _enabled s = true ->
  str_truthy (image_url rr) = false ->
  reach_finish self env rr dir (default VNone (user s !! key)) s
    = (Ok (reply, conversation, id), s2) ->
  cancel_requested s2 = false ->
  final_parts reply = Ok model_parts ->
  py_append conversation (model_turn model_parts) = Ok conversation' ->
  fst (_save_conversation env dir id conversation' s2) = Ok true ->
  let (r, s') := process_request self env rr s in
  r = Ok tt /\
  exists name,
    id = VStr name /\
    fs s' = <[conversation_path dir name := json_dump conversation']> (fs s) /\
    user s' = <[key := VStr name]> (user s) /\
    trace s' =
      trace s2 ++ [ELog (LogSaving (VStr name));
                   EFile FOpenWrite (conversation_path dir name);
                   ESaveUser (<[key := VStr name]> (user s));
                   ESend (response s') true] /\
    response s' = response s2 /\ error s' = error s /\ _enabled s' = true.
Proof.
  intros dir key Hen Himg Hreach Hc Hparts Happend Hsave.
  rewrite process_request_enabled by done. fold dir key.
  rewrite request_body_finish, Hreach.
  pose proof (reach_finish_frame self env rr dir (default VNone (user s !! key)) s) as Hf.
  rewrite Hreach in Hf. simpl in Hf. destruct Hf as (_ & Hfs & Hu & Herr & Hen2).
  unfold finish_turn, bind, gets, lift. rewrite Hc, Himg, Hparts.
  unfold model_turn in Happend. rewrite Happend. simpl.
  destruct (_save_conversation env dir id conversation' s2) as [saved s3] eqn:Hrun.
  simpl in Hsave. subst saved.
  destruct (_save_conversation_accepted _ _ _ _ _ _ Hrun) as (name & -> & _ & ->).
  unfold user_setitem, save_user, modify, bind. simpl.
  split; [done |]. exists name.
  rewrite Hu, Hfs, Hen2, Herr, <- !app_assoc. done.
Qed.

Lemma completed_turn_is_persisted_witness :
  let dir := conversations_dir (config demo_module) in
  let conversation := JArr [JStr "user:Hello"] in
  let conversation' := JArr [JStr "user:Hello"; JStr "model:Hi there"] in
  let s2 := snd (reach_finish (H := demo_lib) demo_module demo_env demo_text dir
                   VNone demo_state) in
  _enabled demo_state = true /\
  cancel_requested s2 = false /\
  let (r, s') := process_request (lib := demo_lib) demo_module demo_env demo_text demo_state in
  r = Ok tt /\
  fs s' = {[ "conversations/0b5f.json"%string := demo_dump conversation' ]} /\
  user s' = {[ "gemini_conversation_id"%string := VStr "0b5f" ]}.
Proof.
  intros dir conversation conversation' s2.
  assert (cancel_requested s2 = false) as Hc by (vm_compute; reflexivity).
  assert (reach_finish (H := demo_lib) demo_module demo_env demo_text dir
            (default VNone (user demo_state !! conversation_key demo_module)) demo_state
          = (Ok (demo_reply, conversation, VStr "0b5f"), s2)) as Hreach
    by (vm_compute; reflexivity).
  assert (fst (_save_conversation (lib := demo_lib) demo_env dir (VStr "0b5f")
                 conversation' s2) = Ok true) as Hsave by (vm_compute; reflexivity).
  split; [reflexivity |]. split; [exact Hc |].
  pose proof (completed_turn_is_persisted (H := demo_lib) demo_module demo_env demo_text
                demo_state demo_reply conversation (VStr "0b5f") s2
                [PartText "Hi there"] conversation'
                eq_refl eq_refl Hreach Hc eq_refl eq_refl Hsave) as Hthm.
  destruct (process_request _ _ _ _) as [r s'].
  destruct Hthm as (Hr & name & Hname & Hfs & Hu & _).
  injection Hname as <-.
  split; [exact Hr |]. split; [exact Hfs | exact Hu].
Defined.

(** ** The conversation store, operation by operation *)

(** X12.  [_save_conversation] never raises and tells the truth: it
    reports success exactly when the identifier is a string and the file was
    opened and written without failure, and then the file holds the
    serialized conversation.  When it reports failure because the identifier
    is not a string or the file could not be opened, no file has changed;
    when the write failed after the file had been opened, the old content is
    lost and the file holds only the characters written before the failure.
    No other file is ever affected, and the user record is never touched. *)
Theorem save_conversation_outcome `{PyLib} env dir id conversation s :
  let (r, s') := _save_conversation env dir id conversation s in
  exists saved, r = Ok saved /\
    (saved = true <->
       exists name, id = VStr name /\ env_io_fault env (conversation_path dir name) = None) /\
    (forall name, saved = true -> id = VStr name ->
       fs s' = <[conversation_path dir name := json_dump conversation]> (fs s)) /\
    (forall name written e, id = VStr name ->
       env_io_fault env (conversation_path dir name) = Some (Interrupted written e) ->
       saved = false /\
       fs s' = <[conversation_path dir name :=
                   String.substring 0 written (json_dump conversation)]> (fs s)) /\
    (saved = false ->
       (forall name written e, id = VStr name ->
          env_io_fault env (conversation_path dir name) <> Some (Interrupted written e)) ->
       fs s' = fs s) /\
    (forall other, (forall name, id = VStr name -> other <> conversation_path dir name) ->
       fs s' !! other = fs s !! other) /\
    user s' = user s.
Proof.
  destruct id as [|n|name].
  - exists false. simpl. repeat split; try done. by intros (name & ? & _).
  - exists false. simpl. repeat split; try done. by intros (name & ? & _).
  - rewrite _save_conversation_str.
    destruct (env_io_fault env _) as [[e|written e]|] eqn:Hfault.
    + exists false. simpl. split; [done |]. split; [| split; [| split; [| split; [| split]]]].
      * split; [done |]. intros (name' & [= <-] & Hnone). congruence.
      * done.
      * intros name' written' e' [= <-]. congruence.
      * done.
      * done.
      * done.
    + exists false. simpl. split; [done |]. split; [| split; [| split; [| split; [| split]]]].
      * split; [done |]. intros (name' & [= <-] & Hnone). congruence.
      * done.
      * intros name' written' e' [= <-] Heq. rewrite Hfault in Heq.
        injection Heq as <- <-. done.
      * intros _ Hnot. by destruct (Hnot name written e).
      * intros other Hother. rewrite lookup_insert_ne; [done |].
        intros Heq. by apply (Hother name).
      * done.
    + exists true. simpl. split; [done |]. split; [| split; [| split; [| split; [| split]]]].
      * split; [intros _; by exists name | done].
      * by intros name' _ [= <-].
      * intros name' written' e' [= <-]. congruence.
      * done.
      * intros other Hother. rewrite lookup_insert_ne; [done |].
        intros Heq. by apply (Hother name).
      * done.
Qed.

(** X13.  [_delete_conversation] never raises either.  It reports success
    exactly when the identifier is a string and the file is absent or could
    be removed; after a success there is no file under the identifier, and
    in every case the other files are as before.  A missing file is a
    success without any removal being attempted. *)
Theorem delete_conversation_outcome env dir id s :
  let (r, s') := _delete_conversation env dir id s in
  exists deleted, r = Ok deleted /\
    (deleted = true <->
       exists name, id = VStr name /\
         (fs s !! conversation_path dir name = None \/
          env_io_fault env (conversation_path dir name) = None)) /\
    (forall name, deleted = true -> id = VStr name ->
       fs s' !! conversation_path dir name = None) /\
    (forall name other, id = VStr name -> other <> conversation_path dir name ->
       fs s' !! other = fs s !! other) /\
    (deleted = false -> fs s' = fs s) /\
    (forall name, id = VStr name -> fs s !! conversation_path dir name = None ->
       trace s' = trace s ++ [ELog (LogDeleting id);
                              EFile FExists (conversation_path dir name)]).
Proof.
  destruct id as [|n|name].
  - exists false. simpl. repeat split; try done. by intros (name & ? & _).
  - exists false. simpl. repeat split; try done. by intros (name & ? & _).
  - rewrite _delete_conversation_str.
    destruct (fs s !! conversation_path dir name) as [text|] eqn:Hfile.
    + destruct (env_io_fault env _) as [e|] eqn:Hfault.
      * exists false. simpl. repeat split; try done.
        -- intros (name' & [= <-] & [Hnone | Hnone]); congruence.
        -- intros name' [= <-]. congruence.
      * exists true. simpl. repeat split; try done.
        -- intros _. exists name. auto.
        -- intros name' _ [= <-]. by rewrite lookup_delete_eq.
        -- intros name' other [= <-] Hother. by rewrite lookup_delete_ne.
        -- intros name' [= <-]. congruence.
    + exists true. simpl. repeat split; try done.
      * intros _. exists name. auto.
      * by intros name' _ [= <-].
      * intros name' [= <-] _. by rewrite <- app_assoc.
Qed.

(** ** Streams that are not cancelled *)

Lemma relays_count acc chunks :
  List.length (relays acc chunks) = List.length (omap chunk_text chunks).
Proof.
  revert acc. induction chunks as [|c rest IH]; intros acc; simpl; [done |].
  destruct (chunk_text c); simpl; by rewrite IH.
Qed.

(** X14.  An image request that is not cancelled relays the whole reply.
    When the request gets as far as a streamed reply and the cancel flag
    stays down, every chunk is processed in order: the response ends up as
    the initial accumulator followed by the text of all chunks, one
    in-progress update is relayed per chunk that carries text (none for a
    chunk without text), each showing the text accumulated so far, and the
    final update follows at once.  The call returns normally, the module
    stays enabled, and nothing is stored. *)
Theorem image_reply_is_relayed `{PyLib} self env rr s reply conversation id s1 chunks :
  _enabled s = true ->
  cancel_requested s = false ->
  str_truthy (image_url rr) = true ->
  reach_stream self env rr (conversations_dir (config self))
    (default VNone (user s !! conversation_key self)) s
    = (Ok (reply, conversation, id), s1) ->
  items reply = map delivered chunks ->
  end_cancel reply = false ->
  let (r, s') := process_request self env rr s in
  r = Ok tt /\
  response s' = response s +:+ texts chunks /\
  trace s' = trace s1 ++ relays (response s) chunks
                      ++ [ESend (response s +:+ texts chunks) true] /\
  List.length (relays (response s) chunks) = List.length (omap chunk_text chunks) /\
  _enabled s' = true /\ cancel_requested s' = false /\ processing_flag s' = false /\
  fs s' = fs s /\ user s' = user s.
Proof.
  intros Hen Hc Himg Hreach Hitems Hend.
  rewrite process_request_enabled by done.
  rewrite request_body_split, Hreach.
  pose proof (reach_stream_frame self env rr (conversations_dir (config self))
                (default VNone (user s !! conversation_key self)) s) as Hf.
  rewrite Hreach in Hf. simpl in Hf.
  destruct Hf as (_ & Hfs & Hu & Hr & _ & Hc1 & Hen1). rewrite Hc in Hc1.
  rewrite Hitems, stream_chunks_exhausted, Hend by done.
  destruct (consume_frame chunks s1) as (Cfs & Cu & _ & Cc & Cen & _).
  unfold same in *.
  unfold finish_turn, bind, gets, ret. rewrite Cc, Hc1, Himg. simpl.
  rewrite consume_response, consume_trace, Hr, Cfs, Cu, Cc, Cen, Hfs, Hu, Hc1, Hen1, Hen.
  repeat split; try done.
  - by rewrite <- app_assoc.
  - apply relays_count.
Qed.

Lemma image_reply_is_relayed_witness :
  let s1 := snd (reach_stream (H := demo_lib) demo_module demo_env demo_image
                   "conversations" VNone demo_state) in
  _enabled demo_state = true /\ cancel_requested demo_state = false /\
  str_truthy (image_url demo_image) = true /\
  let (r, s') := process_request (lib := demo_lib) demo_module demo_env demo_image demo_state in
  r = Ok tt /\
  response s' = "Hi there"%string /\
  trace s' = trace s1 ++ [ESend "Hi" false; ESend "Hi there" false; ESend "Hi there" true].
Proof.
  intros s1.
  assert (reach_stream (H := demo_lib) demo_module demo_env demo_image
            (conversations_dir (config demo_module))
            (default VNone (user demo_state !! conversation_key demo_module)) demo_state
          = (Ok (demo_reply, JArr [], VNone), s1)) as Hreach by (vm_compute; reflexivity).
  split; [reflexivity |]. split; [reflexivity |]. split; [reflexivity |].
  pose proof (image_reply_is_relayed (H := demo_lib) demo_module demo_env demo_image
                demo_state demo_reply (JArr []) VNone s1
                [mkChunk [PartText "Hi"]; mkChunk []; mkChunk [PartText " there"]]
                eq_refl eq_refl eq_refl Hreach eq_refl eq_refl) as Hthm.
  destruct (process_request _ _ _ _) as [r s'].
  destruct Hthm as (Hr & Hresp & Htrace & _). repeat split; assumption.
Defined.

(** X15.  A stream that breaks leaves the partial reply behind.  When the
    pull of an item raises while the cancel flag is down, the exception
    propagates to the caller and the module is disabled; the response keeps
    the text of the chunks received before the failure, whose in-progress
    updates were relayed, but there is no final update, no transcript is
    saved and the user record is not touched. *)
Theorem broken_stream_keeps_partial_reply `{PyLib} self env rr s reply conversation id s1
    chunks item rest e :
  _enabled s = true ->
  cancel_requested s = false ->
  reach_stream self env rr (conversations_dir (config self))
    (default VNone (user s !! conversation_key self)) s
    = (Ok (reply, conversation, id), s1) ->
  items reply = map delivered chunks ++ item :: rest ->
  it_cancel item = false ->
  it_chunk item = Raise e ->
  let (r, s') := process_request self env rr s in
  r = Raise e /\
  response s' = response s +:+ texts chunks /\
  trace s' = trace s1 ++ relays (response s) chunks /\
  _enabled s' = false /\ processing_flag s' = false /\
  fs s' = fs s /\ user s' = user s.
Proof.
  intros Hen Hc Hreach Hitems Hcancel Hchunk.
  rewrite process_request_enabled by done.
  rewrite request_body_split, Hreach.
  pose proof (reach_stream_frame self env rr (conversations_dir (config self))
                (default VNone (user s !! conversation_key self)) s) as Hf.
  rewrite Hreach in Hf. simpl in Hf.
  destruct Hf as (_ & Hfs & Hu & Hr & _ & Hc1 & _). rewrite Hc in Hc1.
  rewrite Hitems, stream_chunks_delivered by done. simpl.
  unfold external_cancel, bind, gets, lift, ret. rewrite Hcancel, Hchunk. simpl.
  destruct (consume_frame chunks s1) as (Cfs & Cu & _). unfold same in *.
  rewrite consume_response, consume_trace, Hr, Cfs, Cu, Hfs, Hu.
  repeat split; done.
Qed.

Lemma broken_stream_keeps_partial_reply_witness :
  let reply := mkResponse [text_chunk "Hi"; mkItem false (Raise (ExternalError "reset"))]
                 false (Ok []) in
  let env := mkEnv "0b5f" (fun _ => Ok "jpeg"%string) (fun _ => Ok reply)
               (fun _ => None) None in
  let s1 := snd (reach_stream (H := demo_lib) demo_module env demo_text
                   "conversations" VNone demo_state) in
  _enabled demo_state = true /\ cancel_requested demo_state = false /\
  let (r, s') := process_request (lib := demo_lib) demo_module env demo_text demo_state in
  r = Raise (ExternalError "reset") /\
  response s' = "Hi"%string /\
  trace s' = trace s1 ++ [ESend "Hi" false] /\
  _enabled s' = false.
Proof.
  intros reply env s1.
  assert (reach_stream (H := demo_lib) demo_module env demo_text
            (conversations_dir (config demo_module))
            (default VNone (user demo_state !! conversation_key demo_module)) demo_state
          = (Ok (reply, JArr [JStr "user:Hello"], VStr "0b5f"), s1)) as Hreach
    by (vm_compute; reflexivity).
  split; [reflexivity |]. split; [reflexivity |].
  pose proof (broken_stream_keeps_partial_reply (H := demo_lib) demo_module env demo_text
                demo_state reply (JArr [JStr "user:Hello"]) (VStr "0b5f") s1
                [mkChunk [PartText "Hi"]] (mkItem false (Raise (ExternalError "reset"))) []
                (ExternalError "reset")
                eq_refl eq_refl Hreach eq_refl eq_refl eq_refl) as Hthm.
  destruct (process_request _ _ _ _) as [r s'].
  destruct Hthm as (Hr & Hresp & Htrace & Hen & _). repeat split; assumption.
Defined.

(** ** What a call leaves alone *)

#[global] Instance grows_preorder : PreOrder grows.
Proof.
  split.
  - intros s. exists EmptyString. by rewrite append_empty_r.
  - intros s1 s2 s3 [a Ha] [b Hb]. exists (a +:+ b).
    by rewrite Hb, Ha, append_assoc.
Qed.

Lemma stream_chunks_appends pending at_end s :
  exists suffix, response (snd (stream_chunks pending at_end s)) = response s +:+ suffix.
Proof.
  revert s. change (keeps grows (stream_chunks pending at_end)).
  induction pending as [|item rest IH]; simpl; unfold_calls; frame_walk;
    try exact IH;
    first [ by eexists | exists EmptyString; simpl; by rewrite append_empty_r ].
Qed.

Lemma finish_turn_user `{PyLib} self env rr dir reply conversation id s :
  let s' := snd (finish_turn self env rr dir reply conversation id s) in
  user s' = user s \/ exists v, user s' = <[conversation_key self := v]> (user s).
Proof.
  unfold finish_turn, log, user_setitem, save_user, bind, gets, modify, lift, ret. simpl.
  destruct (cancel_requested s); simpl; [by left |].
  destruct (negb (str_truthy (image_url rr))); simpl; [| by left].
  destruct (final_parts reply) as [model_parts|e]; simpl; [| by left].
  destruct (py_append conversation _) as [conversation'|e]; simpl; [| by left].
  pose proof (save_conversation_outcome env dir id conversation' s) as Hsave.
  destruct (_save_conversation env dir id conversation' s) as [r s3].
  destruct Hsave as (saved & -> & _ & _ & _ & _ & _ & Hu). simpl.
  right. eexists. by rewrite Hu.
Qed.

(** X16.  What [process_request] does to the container.  Whatever happens,
    the user record is changed at most under the module's own conversation
    key: every other entry, the language among them, is as before.  On an
    enabled module the error flag is never written and the response is only
    ever extended: the text it held when the call started is still at its
    front when the call is over. *)
Theorem container_is_respected `{PyLib} self env rr s :
  let s' := snd (process_request self env rr s) in
  (forall k, k <> conversation_key self -> user s' !! k = user s !! k) /\
  (_enabled s = true ->
     error s' = error s /\
     exists suffix, response s' = response s +:+ suffix).
Proof.
  destruct (_enabled s) eqn:Hen.
  - rewrite process_request_enabled by done.
    set (dir := conversations_dir (config self)).
    set (id := default VNone (user s !! conversation_key self)).
    rewrite request_body_split.
    pose proof (reach_stream_frame self env rr dir id s) as Hf.
    destruct (reach_stream self env rr dir id s) as [[[[reply conversation] id']|e] s1];
      simpl in Hf; destruct Hf as (_ & _ & Hu1 & Hr1 & He1 & _).
    + destruct (stream_chunks_frame (items reply) (end_cancel reply) s1)
        as (_ & _ & Hu2 & He2 & _).
      destruct (stream_chunks_appends (items reply) (end_cancel reply) s1) as [suffix Hr2].
      unfold same in *.
      destruct (stream_chunks _ _ s1) as [[[]|e] s2]; simpl in *.
      * pose proof (finish_turn_user self env rr dir reply conversation id' s2) as Hu3.
        destruct (finish_turn_frame self env rr dir reply conversation id' s2)
          as (_ & Hr3 & He3 & _).
        unfold same in *.
        destruct (finish_turn _ _ _ _ _ _ _ s2) as [[[]|e] s3]; simpl in *;
          (split; [| intros _; split; [congruence | exists suffix; congruence]]);
          intros k Hk; destruct Hu3 as [-> | [v ->]];
          rewrite ?lookup_insert_ne by done; congruence.
      * split; [intros k Hk; congruence |].
        intros _. split; [congruence | exists suffix; congruence].
    + simpl. split; [intros k Hk; congruence |].
      intros _. split; [done |]. exists EmptyString. by rewrite append_empty_r.
  - rewrite process_request_disabled by done.
    destruct (response_error _ _ _); simpl; split; done.
Qed.

(** X17.  A reply that cannot be aggregated is fatal.  For a text request
    whose stream has ended with the cancel flag down, when [response.parts]
    raises (as it does for a blocked reply), the exception propagates and the
    module is disabled: nothing happens after the loop, so no transcript is
    saved, the user record is as it was and no final update is relayed, even
    though every chunk received has been relayed. *)
Theorem unaggregated_reply_is_fatal `{PyLib} self env rr s reply conversation id s2 e :
  let dir := conversations_dir (config self) in
  let key := conversation_key self in
  _enabled s = true ->
  str_truthy (image_url rr) = false ->
  reach_finish self env rr dir (default VNone (user s !! key)) s
    = (Ok (reply, conversation, id), s2) ->
  cancel_requested s2 = false ->
  final_parts reply = Raise e ->
  let (r, s') := process_request self env rr s in
  r = Raise e /\
  trace s' = trace s2 /\ response s' = response s2 /\
  _enabled s' = false /\ processing_flag s' = false /\
  fs s' = fs s /\ user s' = user s.
Proof.
  intros dir key Hen Himg Hreach Hc Hparts.
  rewrite process_request_enabled by done. fold dir key.
  rewrite request_body_finish, Hreach.
  pose proof (reach_finish_frame self env rr dir (default VNone (user s !! key)) s) as Hf.
  rewrite Hreach in Hf. simpl in Hf. destruct Hf as (_ & Hfs & Hu & _).
  unfold finish_turn, bind, gets, lift. rewrite Hc, Himg, Hparts. simpl.
  repeat split; done.
Qed.

Lemma unaggregated_reply_is_fatal_witness :
  let dir := conversations_dir (config demo_module) in
  let s2 := snd (reach_finish (H := demo_lib) demo_module demo_env_blocked demo_text dir
                   VNone demo_state) in
  _enabled demo_state = true /\
  cancel_requested s2 = false /\
  let (r, s') :=
    process_request (lib := demo_lib) demo_module demo_env_blocked demo_text demo_state in
  r = Raise ValueError /\ trace s' = trace s2 /\ _enabled s' = false /\ fs s' = ∅.
Proof.
  intros dir s2.
  assert (cancel_requested s2 = false) as Hc by (vm_compute; reflexivity).
  assert (reach_finish (H := demo_lib) demo_module demo_env_blocked demo_text dir
            (default VNone (user demo_state !! conversation_key demo_module)) demo_state
          = (Ok (demo_reply_blocked, JArr [JStr "user:Hello"], VStr "0b5f"), s2)) as Hreach
    by (vm_compute; reflexivity).
  split; [reflexivity |]. split; [exact Hc |].
  pose proof (unaggregated_reply_is_fatal (H := demo_lib) demo_module demo_env_blocked
                demo_text demo_state demo_reply_blocked (JArr [JStr "user:Hello"])
                (VStr "0b5f") s2 ValueError
                eq_refl eq_refl Hreach Hc eq_refl) as Hthm.
  destruct (process_request _ _ _ _) as [r s'].
  destruct Hthm as (Hr & Htrace & _ & Hen & _ & Hfs & _). repeat split; assumption.
Defined.

(** ** Calls to the model service *)

Lemma model_calls_app a b : model_calls (a ++ b) = (model_calls a + model_calls b)%nat.
Proof. unfold model_calls. by rewrite filter_app, length_app. Qed.

Lemma model_calls_none (P : event -> Prop) t :
  (forall e, P e -> is_generate e = false) -> Forall P t -> model_calls t = 0%nat.
Proof.
  intros HP Ht. unfold model_calls.
  induction Ht as [|e t He _ IH]; [done |].
  rewrite filter_cons. specialize (HP e He).
  destruct (decide (is_generate e)) as [Hg|Hg]; [| exact IH].
  rewrite HP in Hg. by destruct Hg.
Qed.

Lemma generate_content_calls env present p s :
  let (r, s') := generate_content env present p s in
  exists t, trace s' = trace s ++ t /\ (model_calls t <= 1)%nat /\
            (r = Raise AttributeError \/ model_calls t = 1%nat).
Proof.
  unfold generate_content, bind, modify, lift, raise.
  destruct present; simpl.
  - exists [EGenerate p]. split; [done |]. split; [done |]. by right.
  - exists []. split; [by rewrite app_nil_r |]. split; [cbv; lia |]. by left.
Qed.

Lemma ask_gemini_calls `{PyLib} env rr dir id s :
  let (r, s') := ask_gemini env rr dir id s in
  exists t, trace s' = trace s ++ t /\ (model_calls t <= 1)%nat /\
            (forall a, r = Ok a -> model_calls t = 1%nat).
Proof.
  destruct (str_truthy (image_url rr)) eqn:Himg.
  - unfold ask_gemini, requests_get, log, bind, gets, modify, lift. rewrite Himg. simpl.
    destruct (env_download env _) as [image|e]; simpl.
    + match goal with
      | |- context [generate_content env ?present ?p ?st] =>
          pose proof (generate_content_calls env present p st) as Hg;
          destruct (generate_content env present p st) as [[reply|e] s1]
      end; simpl in *; destruct Hg as (t & Ht & Hle & Hone).
      * eexists (_ :: _ :: _ :: t). rewrite Ht, <- !app_assoc. simpl.
        split; [reflexivity |].
        change (model_calls t <= 1 /\ (forall a, Ok (reply, JArr [], id) = Ok a ->
                                                 model_calls t = 1))%nat.
        split; [done |]. intros _ _. by destruct Hone.
      * eexists (_ :: _ :: _ :: t). rewrite Ht, <- !app_assoc. simpl.
        split; [reflexivity |]. split; [exact Hle | done].
    + eexists [_; _]. rewrite <- !app_assoc. simpl.
      split; [reflexivity |]. split; [cbv; lia | done].
  - destruct (_load_conversation_run env dir id s) as (v & s1 & Hload & _).
    assert (keeps (emits (fun e => ~ is_model_call e)) (_load_conversation env dir id)) as Hk
      by (unfold_calls; frame_walk).
    specialize (Hk s). rewrite Hload in Hk. destruct Hk as (t0 & Ht0 & Hev0).
    simpl in Ht0.
    assert (model_calls t0 = 0%nat) as Hzero.
    { eapply model_calls_none; [| exact Hev0].
      intros e He. destruct e; simpl in *; tauto. }
    rewrite (ask_gemini_text env rr dir id s v s1) by done.
    destruct (py_append _ _) as [conversation|e]; simpl.
    2:{ exists t0. split; [done |]. split; [lia | done]. }
    destruct (_model s1); simpl.
    2:{ exists (t0 ++ [ELog LogAsking]). rewrite Ht0, <- app_assoc.
        split; [done |]. rewrite model_calls_app, Hzero. split; [cbv; lia | done]. }
    destruct (entries_of conversation) as [entries|e]; simpl.
    2:{ exists (t0 ++ [ELog LogAsking]). rewrite Ht0, <- app_assoc.
        split; [done |]. rewrite model_calls_app, Hzero. split; [cbv; lia | done]. }
    destruct (contents_from_json entries) as [history|e]; simpl.
    2:{ exists (t0 ++ [ELog LogAsking]). rewrite Ht0, <- app_assoc.
        split; [done |]. rewrite model_calls_app, Hzero. split; [cbv; lia | done]. }
    destruct (env_generate env (PromptChat history)); simpl;
      exists (t0 ++ [ELog LogAsking; EGenerate (PromptChat history)]);
      rewrite Ht0, <- !app_assoc; (split; [done |]);
      rewrite model_calls_app, Hzero; split; done.
Qed.

(** X18.  One request, one call.  [process_request] calls the model service
    at most once per request; a call that returns normally on an enabled
    module has called it exactly once, and a request turned away because the
    module is not enabled never reaches it. *)
Theorem one_model_call_per_request `{PyLib} self env rr s :
  let (r, s') := process_request self env rr s in
  exists t, trace s' = trace s ++ t /\
    (model_calls t <= 1)%nat /\
    (_enabled s = false -> model_calls t = 0%nat) /\
    (_enabled s = true -> r = Ok tt -> model_calls t = 1%nat).
Proof.
  destruct (_enabled s) eqn:Hen.
  - rewrite process_request_enabled by done.
    set (dir := conversations_dir (config self)).
    set (id := default VNone (user s !! conversation_key self)).
    unfold request_body, bind, modify.
    destruct (cool_down_frame self (set_processing_flag true s)) as ((t0 & Ht0 & Hev0) & _).
    assert (model_calls t0 = 0%nat) as Hz0.
    { eapply model_calls_none; [| exact Hev0]. intros e He. destruct e; simpl in *; tauto. }
    destruct (cool_down self _) as [[[]|e] s0]; simpl in Ht0.
    2:{ exists t0. simpl. split; [done |]. split; [lia |]. split; done. }
    pose proof (ask_gemini_calls env rr dir id s0) as Hask.
    destruct (ask_gemini env rr dir id s0) as [[[[reply conversation] id']|e] s1].
    2:{ destruct Hask as (t1 & Ht1 & Hle & _). exists (t0 ++ t1). simpl.
        rewrite Ht1, Ht0, <- app_assoc. split; [done |].
        rewrite model_calls_app, Hz0. split; [lia |]. split; done. }
    destruct Hask as (t1 & Ht1 & Hle & Hone). specialize (Hone _ eq_refl).
    destruct (stream_chunks_frame (items reply) (end_cancel reply) s1)
      as ((t2 & Ht2 & Hev2) & _).
    assert (model_calls t2 = 0%nat) as Hz2.
    { eapply model_calls_none; [| exact Hev2]. intros e He. destruct e; simpl in *; tauto. }
    destruct (stream_chunks _ _ s1) as [[[]|e] s2]; simpl in Ht2.
    2:{ exists (t0 ++ t1 ++ t2). simpl. rewrite Ht2, Ht1, Ht0, <- !app_assoc.
        split; [done |]. rewrite !model_calls_app, Hz0, Hz2. split; [lia |]. split; done. }
    destruct (finish_turn_frame self env rr dir reply conversation id' s2)
      as ((t3 & Ht3 & Hev3) & _).
    assert (model_calls t3 = 0%nat) as Hz3.
    { eapply model_calls_none; [| exact Hev3].
      intros e He. destruct e as [m| | | | | | |]; try destruct m; simpl in *; tauto. }
    destruct (finish_turn _ _ _ _ _ _ _ s2) as [[[]|e] s3]; simpl in *.
    + exists (t0 ++ t1 ++ t2 ++ t3 ++ [ESend (response s3) true]).
      rewrite Ht3, Ht2, Ht1, Ht0, <- !app_assoc. split; [done |].
      rewrite !model_calls_app, Hz0, Hz2, Hz3, Hone. split; [cbv; lia |].
      split; [done |]. intros _ _. reflexivity.
    + exists (t0 ++ t1 ++ t2 ++ t3).
      rewrite Ht3, Ht2, Ht1, Ht0, <- !app_assoc. split; [done |].
      rewrite !model_calls_app, Hz0, Hz2, Hz3, Hone. split; [cbv; lia |]. split; done.
  - rewrite process_request_disabled by done.
    destruct (response_error _ _ _); simpl; exists [ELog LogNotInitialized];
      (split; [done |]); (split; [cbv; lia |]); split; done.
Qed.

(** ** Files a request may change *)

Lemma ask_gemini_text_id `{PyLib} env rr dir id s reply conversation id' s1 :
  str_truthy (image_url rr) = false ->
  ask_gemini env rr dir id s = (Ok (reply, conversation, id'), s1) ->
  id' = session_id env id.
Proof.
  intros Himg.
  destruct (_load_conversation_run env dir id s) as (v & s0 & Hload & _).
  rewrite (ask_gemini_text env rr dir id s v s0) by done.
  destruct (py_append _ _) as [c|e]; simpl; [| discriminate].
  destruct (_model s0); [| discriminate].
  destruct (entries_of c); [| discriminate].
  destruct (contents_from_json _); [| discriminate].
  destruct (env_generate env _); [| discriminate].
  by intros [= _ _ <- _].
Qed.

Lemma finish_turn_fs `{PyLib} self env rr dir reply conversation id s :
  let s' := snd (finish_turn self env rr dir reply conversation id s) in
  fs s' = fs s \/
  str_truthy (image_url rr) = false /\
  exists name text, id = VStr name /\ fs s' = <[conversation_path dir name := text]> (fs s).
Proof.
  unfold finish_turn, log, user_setitem, save_user, bind, gets, modify, lift, ret. simpl.
  destruct (cancel_requested s); simpl; [by left |].
  destruct (str_truthy (image_url rr)); simpl; [by left |].
  destruct (final_parts reply) as [model_parts|e]; simpl; [| by left].
  destruct (py_append conversation _) as [conversation'|e]; simpl; [| by left].
  pose proof (save_conversation_outcome env dir id conversation' s) as Hsave.
  destruct (_save_conversation env dir id conversation' s) as [r s3].
  destruct Hsave as (saved & -> & Hiff & Hyes & Hcut & Hno & _). simpl.
  destruct saved.
  - destruct (proj1 Hiff eq_refl) as (name & -> & _).
    right. split; [done |]. exists name, (json_dump conversation').
    split; [done |]. by apply Hyes.
  - destruct id as [|n|name].
    + left. apply Hno; [done |]. intros; discriminate.
    + left. apply Hno; [done |]. intros; discriminate.
    + destruct (env_io_fault env (conversation_path dir name)) as [[e|written e]|] eqn:Hfault.
      * left. apply Hno; [done |]. intros name' written' e' [= <-]. congruence.
      * right. split; [done |].
        exists name, (String.substring 0 written (json_dump conversation')).
        split; [done |]. by apply (Hcut name written e).
      * left. apply Hno; [done |]. intros name' written' e' [= <-]. congruence.
Qed.

(** X19.  A request changes at most one file, and removes none: when
    [process_request] is over, either every file is as it was, or exactly
    the conversation file of the session has been written, the session
    being the one stored in the user record or, when there is none, the one
    named by the fresh UUID, and the request being a text request.  Every
    other file is as before. *)
Theorem request_writes_its_own_file `{PyLib} self env rr s :
  let s' := snd (process_request self env rr s) in
  let dir := conversations_dir (config self) in
  fs s' = fs s \/
  str_truthy (image_url rr) = false /\
  exists name text,
    session_id env (default VNone (user s !! conversation_key self)) = VStr name /\
    fs s' = <[conversation_path dir name := text]> (fs s).
Proof.
  destruct (_enabled s) eqn:Hen.
  - rewrite process_request_enabled by done.
    set (dir := conversations_dir (config self)).
    set (id := default VNone (user s !! conversation_key self)).
    unfold request_body, bind, modify.
    destruct (cool_down_frame self (set_processing_flag true s))
      as (_ & (Hfs0 & _) & _).
    destruct (cool_down self _) as [[[]|e] s0]; unfold same in Hfs0; simpl in Hfs0;
      [| by left].
    destruct (ask_gemini_frame env rr dir id s0) as (_ & (Hfs1 & _) & _).
    unfold same in Hfs1.
    destruct (ask_gemini env rr dir id s0) as [[[[reply conversation] id']|e] s1] eqn:Hask;
      simpl in Hfs1; [| left; simpl; congruence].
    destruct (stream_chunks_frame (items reply) (end_cancel reply) s1) as (_ & Hfs2 & _).
    unfold same in Hfs2.
    destruct (stream_chunks _ _ s1) as [[[]|e] s2]; simpl in Hfs2;
      [| left; simpl; congruence].
    pose proof (finish_turn_fs self env rr dir reply conversation id' s2) as Hfin.
    assert (fs s2 = fs s) as Hfs by congruence.
    destruct (finish_turn _ _ _ _ _ _ _ s2) as [[[]|e] s3]; simpl in *;
      (destruct Hfin as [Hsame | (Himg & name & text & Hid & Hwrite)];
       [left; congruence |]);
      right; (split; [done |]); exists name, text;
      rewrite <- (ask_gemini_text_id _ _ _ _ _ _ _ _ _ Himg Hask), Hid, Hwrite, Hfs;
      done.
  - rewrite process_request_disabled by done.
    left. by destruct (response_error _ _ _).
Qed.

(** ** Requests that do not have to wait *)

Lemma cool_down_elapsed self s :
  cooldown_seconds (config self) < first_reading s - _last_request_time s ->
  cool_down self s =
    (Ok tt,
     set_last_request_time (second_reading s)
       (emit (ETime (second_reading s))
          (set_clock (second_reading s) (tl (tl (ticks s)))
             (emit (ETime (first_reading s))
                (set_clock (first_reading s) (tl (ticks s)) s))))).
Proof.
  intros Hlt.
  unfold cool_down, time_time, time_sleep, log, bind, gets, modify, ret, raise,
    config_value. simpl. fold (first_reading s).
  assert ((first_reading s - _last_request_time s <=? cooldown_seconds (config self))
          = false) as -> by lia.
  reflexivity.
Qed.

(** X20.  A request that arrives late enough is not delayed.  On an enabled
    module, when the first reading of the clock is more than
    [cooldown_seconds] after the previous time stamp, the call reads the
    clock exactly twice and never sleeps, so the cool down cannot fail; the
    new time stamp is the second reading. *)
Theorem late_request_does_not_wait `{PyLib} self env rr s :
  _enabled s = true ->
  cooldown_seconds (config self) < first_reading s - _last_request_time s ->
  let (r, s') := process_request self env rr s in
  _last_request_time s' = second_reading s /\
  exists t, trace s' = trace s ++ [ETime (first_reading s); ETime (second_reading s)] ++ t /\
            Forall (fun e => ~ is_clock_event e) t.
Proof.
  intros Hen Hlt. rewrite process_request_enabled by done.
  pose proof (request_body_after_cool_down self env rr (conversations_dir (config self))
                (default VNone (user s !! conversation_key self)) s) as Hb.
  rewrite (cool_down_elapsed self (set_processing_flag true s)) in Hb by exact Hlt.
  destruct (request_body _ _ _ _ _ s) as [r1 s1].
  destruct Hb as (Hl & _ & t0 & t & Ht0 & Ht & Hev). simpl in Hl, Ht0, Ht.
  assert (Forall (fun e => ~ is_clock_event e) t) as Hquiet.
  { eapply Forall_impl; [exact Hev |]. intros e He.
    destruct e as [m| | | | | | |]; try destruct m; simpl in *; tauto. }
  destruct r1 as [[]|e]; simpl; (split; [exact Hl |]).
  - exists (t ++ [ESend (response s1) true]).
    split; [rewrite Ht; by rewrite <- !app_assoc |].
    apply Forall_app. split; [exact Hquiet |]. repeat constructor. simpl. tauto.
  - exists t. split; [rewrite Ht; by rewrite <- !app_assoc | exact Hquiet].
Qed.

Lemma late_request_does_not_wait_witness :
  _enabled demo_state = true /\
  cooldown_seconds (config demo_module) < first_reading demo_state - _last_request_time demo_state /\
  let (r, s') := process_request (lib := demo_lib) demo_module demo_env demo_image demo_state in
  _last_request_time s' = 100 /\
  exists t, trace s' = trace demo_state ++ [ETime 100; ETime 100] ++ t /\
            Forall (fun e => ~ is_clock_event e) t.
Proof.
  assert (cooldown_seconds (config demo_module)
          < first_reading demo_state - _last_request_time demo_state) as Hlt
    by (vm_compute; reflexivity).
  split; [reflexivity |]. split; [exact Hlt |].
  exact (late_request_does_not_wait (H := demo_lib) demo_module demo_env demo_image
           demo_state eq_refl Hlt).
Defined.
